(** * diskspace: a shallow embedding of the disk usage maintainer

    The development follows the two source files of the package:
    [statfs.go] (the usage probe [diskUsage]) and [diskspace.go]
    (the [Maintainer], its entry point [Maintain] and the single
    cycle [maintainDiskUsage]).

    - [uint64] values are integers of [Z] with the wrap-around modulo
      [2^64] written out at every operation that can overflow;
    - [float64] values are IEEE 754 binary64 numbers, taken from the
      executable specification [SpecFloat] ([prec = 53], [emax = 1024]);
    - the operating system, the cleanup callback and the logger are an
      explicit world, threaded through a small state monad whose
      outcomes are a normal return, a panic, or a goroutine that stays
      blocked. *)

From Stdlib Require Import ZArith String List Bool Lia.
From Stdlib Require Import Floats.SpecFloat.
Import ListNotations.

Local Open Scope string_scope.
Local Open Scope Z_scope.

(** ** Machine integers *)

Module U64.

Definition modulus : Z := 2 ^ 64.

(** Reduction of a mathematical integer to its [uint64] residue; it is
    also the conversion [uint64(x)] from a narrower or a signed type. *)
Definition wrap (z : Z) : Z := z mod modulus.

Definition mul (a b : Z) : Z := wrap (a * b).
Definition sub (a b : Z) : Z := wrap (a - b).

(** Unsigned division truncates; on non-negative operands this is
    [Z.div]. The only divisor of the package is a non-zero constant. *)
Definition div (a b : Z) : Z := a / b.

Definition in_range (z : Z) : Prop := 0 <= z < modulus.

End U64.

(** ** Disk size constants ([diskspace.go], the [iota] block) *)

Definition KB : Z := Z.shiftl 1 (10 * 1).
Definition MB : Z := Z.shiftl 1 (10 * 2).
Definition GB : Z := Z.shiftl 1 (10 * 3).
Definition TB : Z := Z.shiftl 1 (10 * 4).
Definition PB : Z := Z.shiftl 1 (10 * 5).
Definition EB : Z := Z.shiftl 1 (10 * 6).
Definition ZB : Z := Z.shiftl 1 (10 * 7).
Definition YB : Z := Z.shiftl 1 (10 * 8).

(** ** Floating point *)

Definition float64 : Type := spec_float.

Definition f64_prec : Z := 53.
Definition f64_emax : Z := 1024.

(** The conversion [float64(n)] of an integer: round to nearest, ties to
    even. *)
Definition float64_of_int (n : Z) : float64 :=
  binary_normalize f64_prec f64_emax n 0 false.

Definition float64_div (x y : float64) : float64 :=
  SFdiv f64_prec f64_emax x y.

Definition float64_lt (x y : float64) : bool := SFltb x y.
Definition float64_le (x y : float64) : bool := SFleb x y.
(** [x >= y] holds exactly when [y <= x] does. *)
Definition float64_ge (x y : float64) : bool := SFleb y x.

Definition float64_NaN : float64 := S754_nan.
Definition float64_pInf : float64 := S754_infinity false.

(** ** Durations ([time.Duration] is a count of nanoseconds) *)

Definition Duration : Type := Z.
Definition time_Second : Duration := 1000000000.
Definition time_Minute : Duration := 60 * time_Second.

(** ** Defaults ([diskspace.go], lines 134-138) *)

Definition defaultVolume : string := "/".

(** The constant [0.9], converted to [float64] where it is assigned: the
    binary64 number nearest to nine tenths. *)
Definition defaultThreshold : float64 :=
  S754_finite false 8106479329266893 (-53).

Definition defaultCheckInterval : Duration := 10 * time_Minute.

(** ** Errors *)

(** A Go [error] value is observed through its [Error()] text. *)
Record error : Type := mkError { Error : string }.

(** [fmt.Errorf("clean: %v", err)]. *)
Definition Errorf_clean (err : error) : error :=
  mkError ("clean: " ++ Error err).

(** ** The probe's data ([statfs.go]) *)

(** The fields of [unix.Statfs_t] that the probe reads. [Bsize] is a
    signed 64-bit field on linux and an unsigned 32-bit one on darwin;
    the probe converts it with [uint64(fs.Bsize)]. *)
Record Statfs_t : Type := mkStatfs {
  Blocks : Z;
  Bfree : Z;
  Bavail : Z;
  Bsize : Z
}.

Record diskStatus : Type := mkDiskStatus {
  all : Z;
  available : Z;
  free : Z;
  used : Z
}.

(** The zero value [diskStatus{}]. *)
Definition diskStatus_zero : diskStatus := mkDiskStatus 0 0 0 0.

Definition set_used (d : diskStatus) (u : Z) : diskStatus :=
  mkDiskStatus (all d) (available d) (free d) u.

(** ** Logging ([go.uber.org/zap]) *)

Inductive Level : Type := InfoLevel | WarnLevel | ErrorLevel.

Inductive Field : Type :=
| zap_String (key val : string)
| zap_Float64 (key : string) (val : float64)
| zap_Duration (key : string) (val : Duration)
| zap_Uint64 (key : string) (val : Z)
| zap_Error (err : error).

(** A logger is either the no-op logger of [zap.NewNop()] or one that
    the embedding program supplied. *)
Inductive zap_Logger : Type :=
| zap_NewNop
| zap_Custom (id : nat).

(** ** Observable events of a run, in the order in which they happen *)

Inductive Event : Type :=
| EvStatfs (path : string)
| EvClean
| EvLog (lg : zap_Logger) (lvl : Level) (msg : string) (fields : list Field)
| EvNewTicker (d : Duration)
| EvTickerStop.

Definition is_Statfs (e : Event) : bool :=
  match e with EvStatfs _ => true | _ => false end.

Definition is_Clean (e : Event) : bool :=
  match e with EvClean => true | _ => false end.

Definition is_Log (msg : string) (e : Event) : bool :=
  match e with EvLog _ _ m _ => String.eqb m msg | _ => false end.

(** Number of probes, of cleanup calls, and of log calls with a given
    message, in a trace. *)
Definition probes (t : list Event) : nat := length (filter is_Statfs t).
Definition cleans (t : list Event) : nat := length (filter is_Clean t).
Definition logs (msg : string) (t : list Event) : nat :=
  length (filter (is_Log msg) t).

(** ** The platform *)

(** What the package takes from its platform: the constant
    [runtime.GOOS] and the system call [unix.Statfs], which reads the
    world and either fills a [Statfs_t] or fails. *)
Class Platform (World : Type) : Type := {
  GOOS : string;
  syscall_Statfs : string -> World -> Statfs_t + error
}.

(** ** How a call ends *)

(** A call of Go code returns a value, or panics with a value, or never
    comes back: it waits for something that does not happen. *)
Inductive Outcome (A : Type) : Type :=
| Returns (a : A)
| Panics (v : string)
| Blocked.

Arguments Returns {A}.
Arguments Panics {A}.
Arguments Blocked {A}.

(** ** The maintainer ([diskspace.go], lines 15-35) *)

(** [Clean] and [Logger] are [None] when the Go field is [nil]; [mu] is
    [true] while the mutex is held. The cleanup function is the
    caller's own code: it acts on the world, and it answers with an error
    or [nil], or panics, or never returns. It is taken not to write the
    fields of the maintainer that calls it, which the package reads as
    fixed once [Maintain] has applied the defaults. *)
Record Maintainer (World : Type) : Type := mkMaintainer {
  Volume : string;
  CheckInterval : Duration;
  Threshold : float64;
  Clean : option (World -> Outcome (option error) * World);
  Logger : option zap_Logger;
  mu : bool
}.

Arguments mkMaintainer {World}.
Arguments Volume {World}.
Arguments CheckInterval {World}.
Arguments Threshold {World}.
Arguments Clean {World}.
Arguments Logger {World}.
Arguments mu {World}.

(** The state of a run: the maintainer behind the receiver pointer, the
    world, and the events so far. *)
Record State (World : Type) : Type := mkState {
  self : Maintainer World;
  world : World;
  trace : list Event
}.

Arguments mkState {World}.
Arguments self {World}.
Arguments world {World}.
Arguments trace {World}.

(** ** The monad of Go code *)

Definition Go (World A : Type) : Type :=
  State World -> Outcome A * State World.

Definition ret {World A : Type} (a : A) : Go World A :=
  fun s => (Returns a, s).

Definition bind {World A B : Type}
  (c : Go World A) (k : A -> Go World B) : Go World B :=
  fun s =>
    match c s with
    | (Returns a, s') => k a s'
    | (Panics v, s') => (Panics v, s')
    | (Blocked, s') => (Blocked, s')
    end.

Declare Scope go_scope.
Delimit Scope go_scope with go.

Notation "x <- c ;; k" := (bind c (fun x => k))
  (at level 61, c at next level, right associativity) : go_scope.
Notation "c ;; k" := (bind c (fun _ => k))
  (at level 61, right associativity) : go_scope.

Local Open Scope go_scope.

Definition panic {World A : Type} (v : string) : Go World A :=
  fun s => (Panics v, s).

(** A goroutine that waits for something that never comes. *)
Definition block {World A : Type} : Go World A :=
  fun s => (Blocked, s).

Definition emit {World : Type} (e : Event) : Go World unit :=
  fun s => (Returns tt, mkState (self s) (world s) (trace s ++ [e])).

Definition get_self {World : Type} : Go World (Maintainer World) :=
  fun s => (Returns (self s), s).

Definition put_self {World : Type} (m : Maintainer World) : Go World unit :=
  fun s => (Returns tt, mkState m (world s) (trace s)).

(** The state [s] once the world has become [w] and the events [evs]
    have happened. *)
Definition after {World : Type}
  (s : State World) (w : World) (evs : list Event) : State World :=
  mkState (self s) w (trace s ++ evs).

(** [defer d] around a body: [d] runs when the body returns and when it
    panics; a body that never finishes never runs it. *)
Definition defer {World A : Type}
  (d : Go World unit) (body : Go World A) : Go World A :=
  fun s =>
    match body s with
    | (Blocked, s') => (Blocked, s')
    | (o, s') =>
      match d s' with
      | (Returns _, s'') => (o, s'')
      | (Panics v, s'') => (Panics v, s'')
      | (Blocked, s'') => (Blocked, s'')
      end
    end.

(** *** Field assignments through the receiver pointer *)

Definition set_Volume {World : Type} (v : string) : Go World unit :=
  m <- get_self ;;
  put_self (mkMaintainer v (CheckInterval m) (Threshold m)
                         (Clean m) (Logger m) (mu m)).

Definition set_CheckInterval {World : Type} (d : Duration) : Go World unit :=
  m <- get_self ;;
  put_self (mkMaintainer (Volume m) d (Threshold m)
                         (Clean m) (Logger m) (mu m)).

Definition set_Threshold {World : Type} (t : float64) : Go World unit :=
  m <- get_self ;;
  put_self (mkMaintainer (Volume m) (CheckInterval m) t
                         (Clean m) (Logger m) (mu m)).

Definition set_Logger {World : Type} (lg : zap_Logger) : Go World unit :=
  m <- get_self ;;
  put_self (mkMaintainer (Volume m) (CheckInterval m) (Threshold m)
                         (Clean m) (Some lg) (mu m)).

Definition set_mu {World : Type} (b : bool) : Go World unit :=
  m <- get_self ;;
  put_self (mkMaintainer (Volume m) (CheckInterval m) (Threshold m)
                         (Clean m) (Logger m) b).

(** *** The mutex [m.mu] *)

(** [Lock] waits for as long as the mutex is held; in a run of one
    goroutine nobody else will release it. *)
Definition mu_Lock {World : Type} : Go World unit :=
  m <- get_self ;;
  if mu m then block else set_mu true.

Definition mu_Unlock {World : Type} : Go World unit :=
  m <- get_self ;;
  if mu m then set_mu false
  else panic "sync: unlock of unlocked mutex".

(** *** Calls on [m.Logger] and on [m.Clean] *)

Definition Logger_log {World : Type}
  (lvl : Level) (msg : string) (fields : list Field) : Go World unit :=
  m <- get_self ;;
  match Logger m with
  | None => panic "invalid memory address or nil pointer dereference"
  | Some lg => emit (EvLog lg lvl msg fields)
  end.

Definition call_Clean {World : Type} : Go World (option error) :=
  m <- get_self ;;
  match Clean m with
  | None => panic "invalid memory address or nil pointer dereference"
  | Some f =>
    emit EvClean ;;
    fun s =>
      let (o, w') := f (world s) in
      (o, mkState (self s) w' (trace s))
  end.

(** ** The usage probe [diskUsage] ([statfs.go], lines 16-34) *)

Section Package.

Context {World : Type} `{Platform World}.

(** [unix.Statfs(path, &fs)]: the call is recorded, and the world
    answers. *)
Definition unix_Statfs (path : string) : Go World (Statfs_t + error) :=
  emit (EvStatfs path) ;;
  fun s => (Returns (syscall_Statfs path (world s)), s).

Definition diskUsage (path : string) : Go World (diskStatus * option error) :=
  r <- unix_Statfs path ;;
  match r with
  | inr err => ret (diskStatus_zero, Some err)
  | inl fs =>
    let disk :=
      mkDiskStatus
        (U64.mul (Blocks fs) (U64.wrap (Bsize fs)))
        (U64.mul (Bavail fs) (U64.wrap (Bsize fs)))
        (U64.mul (Bfree fs) (U64.wrap (Bsize fs)))
        0 in
    let disk :=
      if String.eqb GOOS "darwin"
      then set_used disk (U64.sub (all disk) (available disk))
      else set_used disk (U64.sub (all disk) (free disk)) in
    ret (disk, None)
  end.

(** ** One cycle: [maintainDiskUsage] ([diskspace.go], lines 89-132) *)

Definition msg_above : string := "disk space usage above threshold".
Definition msg_cleaned : string := "disk space cleaned".
Definition msg_starting : string := "starting disk usage maintenance goroutine".
Definition msg_checking : string := "checking disk space".

Definition maintainDiskUsage : Go World (option error) :=
  mu_Lock ;;
  defer mu_Unlock (
    m <- get_self ;;
    r <- diskUsage (Volume m) ;;
    match r with
    | (_, Some err) => ret (Some err)
    | (du, None) =>
      let totalMB := U64.div (all du) MB in
      let usedMB := U64.div (used du) MB in
      let usedRatio := float64_div (float64_of_int usedMB)
                                   (float64_of_int totalMB) in
      if float64_lt usedRatio (Threshold m) then ret None
      else
        Logger_log WarnLevel msg_above
          [zap_Uint64 "total_mb" totalMB;
           zap_Uint64 "used_mb" usedMB;
           zap_Float64 "used_ratio" usedRatio;
           zap_Float64 "used_threshold" (Threshold m)] ;;
        err <- call_Clean ;;
        match err with
        | Some e => ret (Some (Errorf_clean e))
        | None =>
          r' <- diskUsage (Volume m) ;;
          match r' with
          | (_, Some err') => ret (Some err')
          | (du', None) =>
            let newUsedMB := U64.div (used du') MB in
            let usedDiff := U64.sub usedMB newUsedMB in
            Logger_log InfoLevel msg_cleaned
              [zap_Uint64 "used_mb" newUsedMB;
               zap_Uint64 "freed_mb" usedDiff] ;;
            ret None
          end
        end
    end).

(** ** The entry point [Maintain] ([diskspace.go], lines 42-87) *)

(** Which case of the [select] is served at one turn of the loop: a tick
    of the ticker, or the cancellation of the context. *)
Inductive Ready : Type := TickerC | CtxDone.

(** Lines 46-57: the defaults. *)
Definition Maintain_defaults : Go World unit :=
  m <- get_self ;;
  (if String.eqb (Volume m) "" then set_Volume defaultVolume else ret tt) ;;
  m <- get_self ;;
  (if float64_le (Threshold m) (float64_of_int 0)
      || float64_ge (Threshold m) (float64_of_int 1)
   then set_Threshold defaultThreshold else ret tt) ;;
  m <- get_self ;;
  (if CheckInterval m <=? 0
   then set_CheckInterval defaultCheckInterval else ret tt) ;;
  m <- get_self ;;
  match Logger m with
  | None => set_Logger zap_NewNop
  | Some _ => ret tt
  end.

(** Lines 59-62: the announcement. *)
Definition Maintain_announce : Go World unit :=
  m <- get_self ;;
  Logger_log InfoLevel msg_starting
    [zap_String "volume" (Volume m);
     zap_Float64 "threshold" (Threshold m);
     zap_Duration "interval" (CheckInterval m)].

(** A cycle as the loop runs it: an error is logged and dropped. *)
Definition Maintain_cycle : Go World unit :=
  err <- maintainDiskUsage ;;
  match err with
  | Some e => Logger_log ErrorLevel msg_checking [zap_Error e]
  | None => ret tt
  end.

(** [time.NewTicker(d)] panics on a non-positive interval. *)
Definition time_NewTicker (d : Duration) : Go World unit :=
  if d <=? 0 then panic "non-positive interval for NewTicker"
  else emit (EvNewTicker d).

(** Lines 74-86: the loop, along the order in which the two channels
    become ready; when neither does, the goroutine stays in [select]. *)
Fixpoint Maintain_loop (ready : list Ready) : Go World unit :=
  match ready with
  | [] => block
  | TickerC :: rest => Maintain_cycle ;; Maintain_loop rest
  | CtxDone :: _ => emit EvTickerStop ;; ret tt
  end.

Definition Maintain (ready : list Ready) : Go World unit :=
  m <- get_self ;;
  match Clean m with
  | None => panic "nil Clean function"
  | Some _ =>
    Maintain_defaults ;;
    Maintain_announce ;;
    Maintain_cycle ;;
    m <- get_self ;;
    time_NewTicker (CheckInterval m) ;;
    Maintain_loop ready
  end.

End Package.

(** ** Notions derived from the package *)

(** Numbers that carry no minus sign. *)
Definition unsigned_float (x : float64) : Prop :=
  match x with
  | S754_zero s | S754_infinity s | S754_finite s _ _ => s = false
  | S754_nan => True
  end.

(** A [Statfs_t] whose counts are unsigned 64-bit values, with free and
    available blocks within the total, and whose byte total fits in 64
    bits. *)
Definition fits_uint64 (fs : Statfs_t) : Prop :=
  0 <= Bsize fs /\
  0 <= Bfree fs <= Blocks fs /\
  0 <= Bavail fs <= Blocks fs /\
  Blocks fs * Bsize fs < U64.modulus.

Section Derived.

Context {World : Type} `{Platform World}.

(** The status that the probe computes from a filled [Statfs_t]
    ([statfs.go], lines 22-32). *)
Definition probed (fs : Statfs_t) : diskStatus :=
  let bsize := U64.wrap (Bsize fs) in
  let total := U64.mul (Blocks fs) bsize in
  mkDiskStatus total (U64.mul (Bavail fs) bsize) (U64.mul (Bfree fs) bsize)
    (if String.eqb GOOS "darwin"
     then U64.sub total (U64.mul (Bavail fs) bsize)
     else U64.sub total (U64.mul (Bfree fs) bsize)).

(** The locals [totalMB], [usedMB] and [usedRatio] of a cycle whose
    probe gave [du] ([diskspace.go], lines 98-100). *)
Definition totalMB_of (du : diskStatus) : Z := U64.div (all du) MB.
Definition usedMB_of (du : diskStatus) : Z := U64.div (used du) MB.
Definition usedRatio_of (du : diskStatus) : float64 :=
  float64_div (float64_of_int (usedMB_of du)) (float64_of_int (totalMB_of du)).

(** The two log calls of a cycle. *)
Definition warn_above (lg : zap_Logger) (du : diskStatus) (t : float64) : Event :=
  EvLog lg WarnLevel msg_above
    [zap_Uint64 "total_mb" (totalMB_of du);
     zap_Uint64 "used_mb" (usedMB_of du);
     zap_Float64 "used_ratio" (usedRatio_of du);
     zap_Float64 "used_threshold" t].

Definition info_cleaned (lg : zap_Logger) (du du' : diskStatus) : Event :=
  EvLog lg InfoLevel msg_cleaned
    [zap_Uint64 "used_mb" (usedMB_of du');
     zap_Uint64 "freed_mb" (U64.sub (usedMB_of du) (usedMB_of du'))].

(** A maintainer as [Maintain] leaves it for its cycles: the callback
    and the logger are set and the mutex is free. *)
Definition ready_with (s : State World) (lg : zap_Logger)
  (f : World -> Outcome (option error) * World) : Prop :=
  Clean (self s) = Some f /\ Logger (self s) = Some lg /\ mu (self s) = false.

(** The maintainer [m] with its mutex held. *)
Definition locked (m : Maintainer World) : Maintainer World :=
  mkMaintainer (Volume m) (CheckInterval m) (Threshold m)
               (Clean m) (Logger m) true.

(** One cycle, unfolded along its seven ways out. When the callback
    panics the deferred unlock still runs; when it never returns the
    mutex stays held. *)
Definition cycle_run (s : State World) (lg : zap_Logger)
  (f : World -> Outcome (option error) * World)
  : Outcome (option error) * State World :=
  let vol := Volume (self s) in
  let th := Threshold (self s) in
  match syscall_Statfs vol (world s) with
  | inr err => (Returns (Some err), after s (world s) [EvStatfs vol])
  | inl fs =>
    let du := probed fs in
    if float64_lt (usedRatio_of du) th
    then (Returns None, after s (world s) [EvStatfs vol])
    else
      match f (world s) with
      | (Returns (Some e), w') =>
        (Returns (Some (Errorf_clean e)),
         after s w' [EvStatfs vol; warn_above lg du th; EvClean])
      | (Returns None, w') =>
        match syscall_Statfs vol w' with
        | inr err =>
          (Returns (Some err),
           after s w' [EvStatfs vol; warn_above lg du th; EvClean; EvStatfs vol])
        | inl fs' =>
          (Returns None,
           after s w' [EvStatfs vol; warn_above lg du th; EvClean; EvStatfs vol;
                       info_cleaned lg du (probed fs')])
        end
      | (Panics v, w') =>
        (Panics v, after s w' [EvStatfs vol; warn_above lg du th; EvClean])
      | (Blocked, w') =>
        (Blocked,
         mkState (locked (self s)) w'
           (trace s ++ [EvStatfs vol; warn_above lg du th; EvClean]))
      end
  end.

(** How the outcome of a cycle follows the outcome [cb] of the callback
    it has called: an error comes back behind "clean: ", a panic goes
    through, and a callback that never returns holds the cycle. *)
Definition follows_callback (cb cycle : Outcome (option error)) : Prop :=
  match cb with
  | Returns (Some e) => cycle = Returns (Some (Errorf_clean e))
  | Returns None => exists r, cycle = Returns r
  | Panics v => cycle = Panics v
  | Blocked => cycle = Blocked
  end.

(** A callback that returns whenever it is called. *)
Definition always_returns (f : World -> Outcome (option error) * World) : Prop :=
  forall w, exists r, fst (f w) = Returns r.

(** The maintainer that lines 46-57 leave behind. *)
Definition with_defaults (m : Maintainer World) : Maintainer World :=
  mkMaintainer
    (if String.eqb (Volume m) "" then defaultVolume else Volume m)
    (if CheckInterval m <=? 0 then defaultCheckInterval else CheckInterval m)
    (if float64_le (Threshold m) (float64_of_int 0)
        || float64_ge (Threshold m) (float64_of_int 1)
     then defaultThreshold else Threshold m)
    (Clean m)
    (match Logger m with None => Some zap_NewNop | Some lg => Some lg end)
    (mu m).

Definition announcement (m : Maintainer World) (lg : zap_Logger) : Event :=
  EvLog lg InfoLevel msg_starting
    [zap_String "volume" (Volume m);
     zap_Float64 "threshold" (Threshold m);
     zap_Duration "interval" (CheckInterval m)].

Definition effective_Logger (m : Maintainer World) : zap_Logger :=
  match Logger m with None => zap_NewNop | Some lg => lg end.

End Derived.

(** The context is cancelled somewhere along the order of readiness. *)
Definition cancelled (ready : list Ready) : bool :=
  existsb (fun r => match r with CtxDone => true | TickerC => false end) ready.

(** The ticks that the loop serves: those that come before the
    cancellation. *)
Fixpoint ticks_served (ready : list Ready) : nat :=
  match ready with
  | [] => 0
  | TickerC :: rest => S (ticks_served rest)
  | CtxDone :: _ => 0
  end.

(** The events of the ticker, in order. *)
Definition is_Ticker (e : Event) : bool :=
  match e with EvNewTicker _ | EvTickerStop => true | _ => false end.

Definition tickers (t : list Event) : list Event := filter is_Ticker t.

(** The events of a cycle, as the loop runs it, whose first probe fails
    with [err]: the probe, and the error in the log. *)
Definition failed_check (vol : string) (lg : zap_Logger) (err : error)
  : list Event :=
  [EvStatfs vol; EvLog lg ErrorLevel msg_checking [zap_Error err]].

(** ** The specification's own words, as definitions *)

(** The usage ratio as the specification words it: used bytes divided
    by 1,048,576 and truncated, over total bytes divided by 1,048,576 and
    truncated, the two truncations first and the division of the two
    whole numbers of megabytes last. *)
Definition ratio_of_truncated_megabytes (used_bytes total_bytes : Z) : float64 :=
  float64_div (float64_of_int (Z.quot used_bytes 1048576))
              (float64_of_int (Z.quot total_bytes 1048576)).

(** A threshold inside the open interval (0,1). *)
Definition in_open_unit_interval (t : float64) : bool :=
  float64_lt (float64_of_int 0) t && float64_lt t (float64_of_int 1).

(** ** Worlds for the examples *)

(** The smallest world: the answer that [unix.Statfs] gives at present,
    whatever the path. *)
Definition Disk : Type := (Statfs_t + error)%type.

Definition linux : Platform Disk :=
  {| GOOS := "linux"; syscall_Statfs := fun _ w => w |}.

Definition darwin : Platform Disk :=
  {| GOOS := "darwin"; syscall_Statfs := fun _ w => w |}.

(** A volume of 4096-byte blocks. *)
Definition volume (blocks bfree bavail : Z) : Disk :=
  inl (mkStatfs blocks bfree bavail 4096).

Definition ENOENT : error := mkError "no such file or directory".

Definition unmounted : Disk := inr ENOENT.

(** A cleanup that leaves the disk as [w'] and answers [err]. *)
Definition cleaner (w' : Disk) (err : option error)
  : Disk -> Outcome (option error) * Disk :=
  fun _ => (Returns err, w').

(** A cleanup that panics with [v], and one that never returns; both
    leave the disk as it is. *)
Definition panicking (v : string) : Disk -> Outcome (option error) * Disk :=
  fun w => (Panics v, w).

Definition stuck : Disk -> Outcome (option error) * Disk :=
  fun w => (Blocked, w).

(** A maintainer as an embedding program would fill it in. *)
Definition configured (v : string) (d : Duration) (t : float64)
  (f : option (Disk -> Outcome (option error) * Disk)) (lg : option zap_Logger)
  : Maintainer Disk :=
  mkMaintainer v d t f lg false.

Definition start (m : Maintainer Disk) (w : Disk) : State Disk :=
  mkState m w [].

(** 100 MB in 4096-byte blocks with 5 MB free: 95% used. *)
Definition full_disk : Disk := volume 25600 1280 1280.

(** The same volume with 20 MB free: 80% used. *)
Definition roomy_disk : Disk := volume 25600 5120 5120.

(** The same volume with 1 MB free: 99% used. *)
Definition fuller_disk : Disk := volume 25600 256 256.

(** 10 MB free of which 5 MB are reserved for the superuser. *)
Definition reserved_disk : Disk := volume 25600 2560 1280.

(** 255 blocks: 1,044,480 bytes, less than a megabyte. *)
Definition tiny_disk : Disk := volume 255 10 10.

(** A file system that reports more free blocks than it has blocks. *)
Definition odd_disk : Disk := volume 1 2 2.

Definition rm_failed : error := mkError "rm: permission denied".

(** A maintainer with the default settings, a no-op logger and the
    cleanup [f]. *)
Definition tidy (f : Disk -> Outcome (option error) * Disk) : Maintainer Disk :=
  configured "/" defaultCheckInterval defaultThreshold (Some f)
             (Some zap_NewNop).

(** A maintainer whose threshold is NaN and whose other fields are
    unset, apart from the cleanup. *)
Definition NaN_maintainer : Maintainer Disk :=
  configured "" 0 float64_NaN (Some (cleaner roomy_disk None)) None.

(** A maintainer with nothing set but the cleanup [f]. *)
Definition unset (f : Disk -> Outcome (option error) * Disk) : Maintainer Disk :=
  configured "" 0 (float64_of_int 0) (Some f) None.

(** A ready maintainer whose threshold is NaN. *)
Definition NaN_tidy (f : Disk -> Outcome (option error) * Disk) : Maintainer Disk :=
  configured "/" defaultCheckInterval float64_NaN (Some f) (Some zap_NewNop).

(** * Properties *)

(** ** Unsigned arithmetic *)

Lemma MB_value : MB = 1048576.
Proof. reflexivity. Qed.

Lemma wrap_range z : U64.in_range (U64.wrap z).
Proof.
  unfold U64.in_range, U64.wrap, U64.modulus.
  apply Z.mod_pos_bound. lia.
Qed.

Lemma wrap_small z : U64.in_range z -> U64.wrap z = z.
Proof. unfold U64.in_range, U64.wrap. intros Hz. now apply Z.mod_small. Qed.

Lemma sub_no_borrow a b :
  U64.in_range a -> U64.in_range b -> b <= a -> U64.sub a b = a - b.
Proof.
  unfold U64.in_range, U64.sub, U64.wrap. intros Ha Hb Hle.
  apply Z.mod_small. lia.
Qed.

Lemma sub_borrow a b :
  U64.in_range a -> U64.in_range b -> a < b ->
  U64.sub a b = U64.modulus + a - b.
Proof.
  unfold U64.in_range, U64.sub, U64.wrap. intros Ha Hb Hlt.
  replace (a - b) with ((U64.modulus + a - b) + (-1) * U64.modulus) by ring.
  rewrite Z.mod_add by (unfold U64.modulus; lia).
  apply Z.mod_small. lia.
Qed.

(** The unsigned difference stays below the minuend exactly when the
    subtraction does not borrow. *)
Lemma sub_le_iff a b :
  U64.in_range a -> U64.in_range b -> (U64.sub a b <= a <-> b <= a).
Proof.
  intros Ha Hb. split; intros Hle.
  - destruct (Z_lt_le_dec a b) as [Hlt|Hge]; [|exact Hge].
    rewrite sub_borrow in Hle by assumption.
    unfold U64.in_range in *. lia.
  - rewrite sub_no_borrow by assumption.
    unfold U64.in_range in *. lia.
Qed.

Lemma div_MB_range z : U64.in_range z -> 0 <= U64.div z MB < 2 ^ 44.
Proof.
  unfold U64.in_range, U64.modulus, U64.div. rewrite MB_value. intros Hz.
  split.
  - apply Z.div_pos; lia.
  - apply Z.div_lt_upper_bound; lia.
Qed.

Lemma div_MB_small z : 0 <= z < 1048576 -> U64.div z MB = 0.
Proof.
  intros Hz. unfold U64.div. rewrite MB_value. now apply Z.div_small.
Qed.

(** On unsigned values the flooring division of the model is the
    truncating division of the specification. *)
Lemma div_MB_quot z : 0 <= z -> U64.div z MB = Z.quot z 1048576.
Proof.
  intros Hz. unfold U64.div. rewrite MB_value.
  symmetry. apply Z.quot_div_nonneg; lia.
Qed.

(** ** Floating-point comparison and division *)

Lemma SFcompare_swap (x y : float64) :
  SFcompare y x = option_map CompOpp (SFcompare x y).
Proof.
  destruct x as [sx|sx| |sx mx ex], y as [sy|sy| |sy my ey];
    simpl; try reflexivity;
    try (destruct sx; reflexivity); try (destruct sy; reflexivity);
    try (destruct sx, sy; reflexivity).
  destruct sx, sy; simpl; try reflexivity;
    rewrite (Z.compare_antisym ey ex);
    destruct (ey ?= ex) eqn:E; simpl; try reflexivity;
    change (Pos.compare_cont Eq my mx) with (Pos.compare my mx);
    change (Pos.compare_cont Eq mx my) with (Pos.compare mx my);
    rewrite (Pos.compare_antisym my mx);
    destruct (my ?= mx)%positive; reflexivity.
Qed.

(** [r >= t] excludes [r < t]. *)
Lemma float64_ge_not_lt (r t : float64) :
  float64_ge r t = true -> float64_lt r t = false.
Proof.
  unfold float64_ge, float64_lt, SFleb, SFltb.
  rewrite (SFcompare_swap t r).
  destruct (SFcompare t r) as [[ | | ]|]; simpl; congruence.
Qed.

(** Away from NaN, [r >= t] is the negation of [r < t]. *)
Lemma float64_ge_negb_lt (r t : float64) :
  SFcompare r t <> None -> float64_ge r t = negb (float64_lt r t).
Proof.
  unfold float64_ge, float64_lt, SFleb, SFltb.
  rewrite (SFcompare_swap r t).
  destruct (SFcompare r t) as [[ | | ]|]; simpl; congruence.
Qed.

Lemma float64_lt_NaN_l (t : float64) : float64_lt float64_NaN t = false.
Proof. reflexivity. Qed.

Lemma float64_lt_NaN_r (x : float64) : float64_lt x float64_NaN = false.
Proof. destruct x; reflexivity. Qed.

Lemma float64_lt_pInf_l (t : float64) : float64_lt float64_pInf t = false.
Proof. destruct t as [s|s| |s m e]; try reflexivity; destruct s; reflexivity. Qed.

Lemma binary_round_aux_unsigned mx ex lx :
  unsigned_float (binary_round_aux f64_prec f64_emax false mx ex lx).
Proof.
  unfold binary_round_aux.
  destruct (shr_fexp f64_prec f64_emax mx ex lx) as [mrs' e'].
  destruct (shr_fexp f64_prec f64_emax _ e' loc_Exact) as [mrs'' e''].
  destruct (shr_m mrs''); simpl; trivial.
  match goal with |- context [if ?c then _ else _] => destruct c end;
    simpl; trivial.
Qed.

Lemma float64_of_int_unsigned n : 0 <= n -> unsigned_float (float64_of_int n).
Proof.
  intros Hn. unfold float64_of_int, binary_normalize.
  destruct n as [|p|p]; simpl; trivial; [|lia].
  unfold binary_round.
  destruct (shl_align p 0 _) as [mz ez].
  apply binary_round_aux_unsigned.
Qed.

(** Division by the float zero of an unsigned number: NaN for [0/0],
    plus infinity otherwise. *)
Lemma float64_div_zero (x : float64) :
  unsigned_float x ->
  float64_div x (float64_of_int 0) = float64_NaN \/
  float64_div x (float64_of_int 0) = float64_pInf.
Proof.
  destruct x as [s|s| |s m e]; simpl; intros Hs; subst; auto.
Qed.

Lemma float64_div_zero_not_lt (x t : float64) :
  unsigned_float x ->
  float64_lt (float64_div x (float64_of_int 0)) t = false.
Proof.
  intros Hx. destruct (float64_div_zero x Hx) as [E|E]; rewrite E.
  - apply float64_lt_NaN_l.
  - apply float64_lt_pInf_l.
Qed.

(** The default threshold is the quotient of nine by ten, rounded once. *)
Lemma defaultThreshold_value :
  defaultThreshold = float64_div (float64_of_int 9) (float64_of_int 10).
Proof. reflexivity. Qed.

Lemma defaultThreshold_in_range :
  in_open_unit_interval defaultThreshold = true.
Proof. reflexivity. Qed.

Lemma defaultCheckInterval_value : defaultCheckInterval = 600000000000.
Proof. reflexivity. Qed.

(** ** Running the package *)

Ltac go_unfold :=
  unfold maintainDiskUsage, Maintain_cycle, Maintain_announce,
    Maintain_defaults, time_NewTicker, diskUsage, unix_Statfs, defer,
    mu_Lock, mu_Unlock, Logger_log, call_Clean, set_Volume,
    set_CheckInterval, set_Threshold, set_Logger, set_mu, emit, get_self,
    put_self, bind, ret, panic, block in *.

Ltac go_cbv :=
  cbv [maintainDiskUsage defer bind ret panic block emit get_self put_self
       mu_Lock mu_Unlock set_mu Logger_log call_Clean
       self world trace mu Volume Threshold Logger Clean CheckInterval after].

Ltac go_state s :=
  destruct s as [[?v ?d ?t ?c ?l ?k] ?w ?tr]; simpl in *; subst.

Section Runs.

Context {World : Type} `{Platform World}.

Lemma diskUsage_ok path s fs :
  syscall_Statfs path (world s) = inl fs ->
  diskUsage path s = (Returns (probed fs, None), after s (world s) [EvStatfs path]).
Proof.
  intros Hfs. go_unfold. simpl. rewrite Hfs. unfold probed, set_used. simpl.
  destruct (String.eqb GOOS "darwin"); reflexivity.
Qed.

Lemma diskUsage_err path s err :
  syscall_Statfs path (world s) = inr err ->
  diskUsage path s =
  (Returns (diskStatus_zero, Some err), after s (world s) [EvStatfs path]).
Proof. intros Hfs. go_unfold. simpl. rewrite Hfs. reflexivity. Qed.

(** The probe always returns; it returns an error exactly when the
    system call fails. *)
Lemma diskUsage_total path s :
  exists d e, diskUsage path s = (Returns (d, e), after s (world s) [EvStatfs path]).
Proof.
  destruct (syscall_Statfs path (world s)) as [fs|err] eqn:E.
  - exists (probed fs), None. now apply diskUsage_ok.
  - exists diskStatus_zero, (Some err). now apply diskUsage_err.
Qed.

Lemma maintainDiskUsage_run s lg f :
  ready_with s lg f -> maintainDiskUsage s = cycle_run s lg f.
Proof.
  intros (Hc & Hl & Hm).
  unfold cycle_run, warn_above, info_cleaned, usedRatio_of, usedMB_of,
    totalMB_of, locked.
  go_state s. go_cbv.
  destruct (syscall_Statfs v w) as [fs|err] eqn:E1.
  - rewrite (diskUsage_ok v _ fs) by exact E1. go_cbv.
    destruct (float64_lt _ t); [reflexivity|].
    destruct (f w) as [[[e|]|pv|] w'] eqn:E2.
    + rewrite <- !app_assoc. reflexivity.
    + destruct (syscall_Statfs v w') as [fs'|err'] eqn:E3.
      * rewrite (diskUsage_ok v _ fs') by exact E3. go_cbv.
        rewrite <- !app_assoc. reflexivity.
      * rewrite (diskUsage_err v _ err') by exact E3. go_cbv.
        rewrite <- !app_assoc. reflexivity.
    + rewrite <- !app_assoc. reflexivity.
    + rewrite <- !app_assoc. reflexivity.
  - rewrite (diskUsage_err v _ err) by exact E1. go_cbv. reflexivity.
Qed.

End Runs.

(** ** The probe *)

Section Probe.

Context {World : Type} `{Platform World}.

Lemma diskUsage_inv path s d s' :
  diskUsage path s = (Returns (d, None), s') ->
  exists fs,
    syscall_Statfs path (world s) = inl fs /\ d = probed fs /\
    s' = after s (world s) [EvStatfs path].
Proof.
  intros Hrun.
  destruct (syscall_Statfs path (world s)) as [fs|err] eqn:E.
  - rewrite (diskUsage_ok path s fs E) in Hrun.
    injection Hrun as Hd Hs. exists fs. auto.
  - rewrite (diskUsage_err path s err E) in Hrun. discriminate.
Qed.

Lemma probed_range fs :
  U64.in_range (all (probed fs)) /\ U64.in_range (available (probed fs)) /\
  U64.in_range (free (probed fs)) /\ U64.in_range (used (probed fs)).
Proof.
  unfold probed; simpl.
  split; [apply wrap_range|]. split; [apply wrap_range|].
  split; [apply wrap_range|].
  destruct (String.eqb GOOS "darwin"); apply wrap_range.
Qed.

Lemma mul_fits a b :
  0 <= a -> 0 <= b -> a * b < U64.modulus -> U64.mul a (U64.wrap b) = a * b.
Proof.
  intros Ha Hb Hab. unfold U64.mul.
  destruct (Z.eq_dec a 0) as [->|Hnz].
  - rewrite !Z.mul_0_l. reflexivity.
  - assert (Hb' : b < U64.modulus) by nia.
    rewrite (wrap_small b) by (unfold U64.in_range; lia).
    apply wrap_small. unfold U64.in_range. nia.
Qed.

(** Without overflow the probe's byte counts are the exact products and
    the exact difference. *)
Lemma probed_exact fs :
  fits_uint64 fs ->
  all (probed fs) = Blocks fs * Bsize fs /\
  available (probed fs) = Bavail fs * Bsize fs /\
  free (probed fs) = Bfree fs * Bsize fs /\
  used (probed fs) =
    if String.eqb GOOS "darwin"
    then Blocks fs * Bsize fs - Bavail fs * Bsize fs
    else Blocks fs * Bsize fs - Bfree fs * Bsize fs.
Proof.
  intros (Hbs & Hfree & Havail & Hfit).
  assert (Ha : U64.mul (Blocks fs) (U64.wrap (Bsize fs)) = Blocks fs * Bsize fs)
    by (apply mul_fits; lia).
  assert (Hv : U64.mul (Bavail fs) (U64.wrap (Bsize fs)) = Bavail fs * Bsize fs)
    by (apply mul_fits; nia).
  assert (Hf : U64.mul (Bfree fs) (U64.wrap (Bsize fs)) = Bfree fs * Bsize fs)
    by (apply mul_fits; nia).
  unfold probed; simpl. rewrite Ha, Hv, Hf.
  repeat split.
  destruct (String.eqb GOOS "darwin");
    apply sub_no_borrow; unfold U64.in_range; nia.
Qed.

(** C2: a successful query makes the probe return
    total = blocks * block_size, available = available_blocks * block_size,
    free = free_blocks * block_size, and used = total - available on
    darwin, used = total - free on every other platform. The operations
    are those of Go's [uint64]; when nothing overflows they are the exact
    products and difference. *)
Theorem diskUsage_formulas path s fs :
  syscall_Statfs path (world s) = inl fs ->
  exists d s',
    diskUsage path s = (Returns (d, None), s') /\
    all d = U64.mul (Blocks fs) (U64.wrap (Bsize fs)) /\
    available d = U64.mul (Bavail fs) (U64.wrap (Bsize fs)) /\
    free d = U64.mul (Bfree fs) (U64.wrap (Bsize fs)) /\
    used d = (if String.eqb GOOS "darwin"
              then U64.sub (all d) (available d)
              else U64.sub (all d) (free d)) /\
    (fits_uint64 fs ->
     all d = Blocks fs * Bsize fs /\
     available d = Bavail fs * Bsize fs /\
     free d = Bfree fs * Bsize fs /\
     used d = if String.eqb GOOS "darwin"
              then all d - available d else all d - free d).
Proof.
  intros Hfs. exists (probed fs), (after s (world s) [EvStatfs path]).
  split; [now apply diskUsage_ok|].
  do 3 (split; [reflexivity|]).
  split; [unfold probed; simpl; destruct (String.eqb GOOS "darwin"); reflexivity|].
  intros Hfit. destruct (probed_exact fs Hfit) as (Ha & Hv & Hf & Hu).
  rewrite Ha, Hv, Hf, Hu. do 3 (split; [reflexivity|]).
  destruct (String.eqb GOOS "darwin"); reflexivity.
Qed.

(** C4, as amended: the status of a successful probe has used <= total
    exactly when the byte count that the platform subtracts (available
    on darwin, free elsewhere) is itself at most the total; otherwise the
    unsigned subtraction borrows and used exceeds total. *)
Theorem used_le_total_iff path s d s' :
  diskUsage path s = (Returns (d, None), s') ->
  (used d <= all d <->
   (if String.eqb GOOS "darwin" then available d else free d) <= all d).
Proof.
  intros Hrun. destruct (diskUsage_inv _ _ _ _ Hrun) as (fs & _ & -> & _).
  destruct (probed_range fs) as (Ha & Hv & Hf & _).
  unfold probed in *; simpl in *.
  destruct (String.eqb GOOS "darwin"); now apply sub_le_iff.
Qed.

(** When the block counts are consistent and nothing overflows, the
    invariant holds on every platform. *)
Lemma used_le_total_fits path s d s' fs :
  syscall_Statfs path (world s) = inl fs -> fits_uint64 fs ->
  diskUsage path s = (Returns (d, None), s') ->
  used d <= all d.
Proof.
  intros Hfs Hfit Hrun. rewrite (diskUsage_ok path s fs Hfs) in Hrun.
  injection Hrun as <- _.
  destruct (probed_exact fs Hfit) as (Ha & _ & _ & Hu). rewrite Ha, Hu.
  destruct Hfit as (Hbs & Hfree & Havail & _).
  destruct (String.eqb GOOS "darwin"); nia.
Qed.

End Probe.

(** ** Counting events *)

Lemma probes_app t u : probes (t ++ u) = (probes t + probes u)%nat.
Proof. unfold probes. now rewrite filter_app, length_app. Qed.

Lemma cleans_app t u : cleans (t ++ u) = (cleans t + cleans u)%nat.
Proof. unfold cleans. now rewrite filter_app, length_app. Qed.

Lemma logs_app msg t u : logs msg (t ++ u) = (logs msg t + logs msg u)%nat.
Proof. unfold logs. now rewrite filter_app, length_app. Qed.

(** ** One cycle *)

Section Cycle.

Context {World : Type} `{Platform World}.

Variables (s : State World) (lg : zap_Logger)
          (f : World -> Outcome (option error) * World).

Hypothesis Hready : ready_with s lg f.

(** With a callback that returns, a cycle of a ready maintainer
    returns. *)
Lemma maintainDiskUsage_returns :
  always_returns f -> exists e, fst (maintainDiskUsage s) = Returns e.
Proof.
  intros Hret.
  rewrite (maintainDiskUsage_run s lg f Hready). unfold cycle_run.
  destruct (syscall_Statfs (Volume (self s)) (world s)) as [fs|err];
    [|simpl; eauto].
  destruct (float64_lt _ _); [simpl; eauto|].
  destruct (Hret (world s)) as (r & Hr).
  destruct (f (world s)) as [o w']. simpl in Hr. subst o.
  destruct r as [e|]; [simpl; eauto|].
  destruct (syscall_Statfs (Volume (self s)) w'); simpl; eauto.
Qed.

(** Unless the callback holds it for ever, a cycle leaves the
    maintainer as it found it, the mutex released. *)
Lemma maintainDiskUsage_self :
  fst (maintainDiskUsage s) <> Blocked ->
  self (snd (maintainDiskUsage s)) = self s.
Proof.
  rewrite (maintainDiskUsage_run s lg f Hready). unfold cycle_run.
  destruct (syscall_Statfs (Volume (self s)) (world s)) as [fs|err]; [|reflexivity].
  destruct (float64_lt _ _); [reflexivity|].
  destruct (f (world s)) as [[[e|]|v|] w']; try reflexivity.
  - destruct (syscall_Statfs (Volume (self s)) w'); reflexivity.
  - simpl. congruence.
Qed.

Variables (du : diskStatus) (s1 : State World).

Hypothesis Hprobe :
  diskUsage (Volume (self s)) s = (Returns (du, None), s1).

Lemma below_threshold_run :
  float64_lt (usedRatio_of du) (Threshold (self s)) = true ->
  maintainDiskUsage s = (Returns None, s1).
Proof.
  intros Hlt. destruct (diskUsage_inv _ _ _ _ Hprobe) as (fs & Hfs & -> & ->).
  rewrite (maintainDiskUsage_run s lg f Hready). unfold cycle_run.
  rewrite Hfs, Hlt. reflexivity.
Qed.

(** From the threshold upwards: the warning, then the callback, once,
    on the world as the probe saw it; whatever follows adds no call of
    it, leaves the world as the callback left it, and ends as the
    callback's answer has it. *)
Lemma above_threshold_run :
  float64_lt (usedRatio_of du) (Threshold (self s)) = false ->
  exists o s' evs,
    maintainDiskUsage s = (o, s') /\
    trace s' = (trace s ++
      [EvStatfs (Volume (self s));
       warn_above lg du (Threshold (self s)); EvClean] ++ evs)%list /\
    cleans evs = 0%nat /\
    world s' = snd (f (world s)) /\
    follows_callback (fst (f (world s))) o.
Proof.
  intros Hlt. destruct (diskUsage_inv _ _ _ _ Hprobe) as (fs & Hfs & -> & ->).
  rewrite (maintainDiskUsage_run s lg f Hready). unfold cycle_run.
  rewrite Hfs, Hlt.
  destruct (f (world s)) as [[[e|]|v|] w'].
  - eexists _, _, []. repeat split.
  - destruct (syscall_Statfs (Volume (self s)) w') as [fs'|err'].
    + eexists _, _, [_; _]. repeat split. simpl. eauto.
    + eexists _, _, [_]. repeat split. simpl. eauto.
  - eexists _, _, []. repeat split.
  - eexists _, _, []. repeat split.
Qed.

(** What it is for the callback to be invoked in a cycle: one more call
    in the events, the world as the callback left the one it was given,
    and a cycle that ends as the callback's answer has it. *)
Lemma callback_applied :
  float64_lt (usedRatio_of du) (Threshold (self s)) = false ->
  cleans (trace (snd (maintainDiskUsage s))) = (cleans (trace s) + 1)%nat /\
  world (snd (maintainDiskUsage s)) = snd (f (world s)) /\
  follows_callback (fst (f (world s))) (fst (maintainDiskUsage s)).
Proof.
  intros Hlt.
  destruct (above_threshold_run Hlt)
    as (o & s' & evs & Hrun & Htr & Hev & Hw & Hf).
  rewrite Hrun; simpl. rewrite Htr, !cleans_app, Hev. auto.
Qed.

(** C1: in a cycle whose first probe succeeds, the cleanup callback is
    invoked exactly once when the computed usedRatio is greater than or
    equal to the threshold, and not at all when it is strictly less.
    Invoked once: one call is recorded, the world is the one the callback
    made of the world it was given, and the cycle ends as the callback's
    answer has it. Not invoked: no call is recorded and the cycle returns
    nil in the state the probe left, whatever the callback is. *)
Theorem cleanup_once_or_never :
  (float64_ge (usedRatio_of du) (Threshold (self s)) = true ->
   cleans (trace (snd (maintainDiskUsage s))) = (cleans (trace s) + 1)%nat /\
   world (snd (maintainDiskUsage s)) = snd (f (world s)) /\
   follows_callback (fst (f (world s))) (fst (maintainDiskUsage s))) /\
  (float64_lt (usedRatio_of du) (Threshold (self s)) = true ->
   cleans (trace (snd (maintainDiskUsage s))) = cleans (trace s) /\
   maintainDiskUsage s = (Returns None, s1) /\
   world s1 = world s).
Proof.
  split; intros Hcmp.
  - apply float64_ge_not_lt in Hcmp. now apply callback_applied.
  - rewrite (below_threshold_run Hcmp); simpl.
    destruct (diskUsage_inv _ _ _ _ Hprobe) as (fs & _ & _ & ->).
    simpl. rewrite cleans_app. unfold cleans. simpl.
    repeat split. lia.
Qed.

Lemma usedMB_of_range : 0 <= usedMB_of du < 2 ^ 44.
Proof.
  destruct (diskUsage_inv _ _ _ _ Hprobe) as (fs & _ & -> & _).
  apply div_MB_range, probed_range.
Qed.

Lemma totalMB_of_range : 0 <= totalMB_of du < 2 ^ 44.
Proof.
  destruct (diskUsage_inv _ _ _ _ Hprobe) as (fs & _ & -> & _).
  apply div_MB_range, probed_range.
Qed.

(** The ratio of the code is the ratio of the specification. *)
Lemma usedRatio_of_truncated :
  usedRatio_of du = ratio_of_truncated_megabytes (used du) (all du) /\
  usedMB_of du = Z.quot (used du) 1048576 /\
  totalMB_of du = Z.quot (all du) 1048576.
Proof.
  destruct (diskUsage_inv _ _ _ _ Hprobe) as (fs & _ & -> & _).
  destruct (probed_range fs) as ((Ha & _) & _ & _ & (Hu & _)).
  unfold usedRatio_of, ratio_of_truncated_megabytes, usedMB_of, totalMB_of.
  rewrite !div_MB_quot by assumption. auto.
Qed.

(** C3: the ratio that a cycle compares with the threshold is the
    quotient of used bytes divided by 1,048,576 and truncated, by total
    bytes divided by 1,048,576 and truncated: below the threshold the
    cycle ends at once, otherwise it logs that very ratio, with the two
    truncated counts, and calls the cleanup. *)
Theorem ratio_truncates_before_dividing :
  let r := ratio_of_truncated_megabytes (used du) (all du) in
  let th := Threshold (self s) in
  (float64_lt r th = true -> maintainDiskUsage s = (Returns None, s1)) /\
  (float64_lt r th = false ->
   In (EvLog lg WarnLevel msg_above
         [zap_Uint64 "total_mb" (Z.quot (all du) 1048576);
          zap_Uint64 "used_mb" (Z.quot (used du) 1048576);
          zap_Float64 "used_ratio" r;
          zap_Float64 "used_threshold" th])
      (trace (snd (maintainDiskUsage s))) /\
   cleans (trace (snd (maintainDiskUsage s))) = (cleans (trace s) + 1)%nat).
Proof.
  destruct usedRatio_of_truncated as (Hr & Hu & Ht).
  cbv zeta. rewrite <- Hr, <- Hu, <- Ht. split; intros Hcmp.
  - now apply below_threshold_run.
  - destruct (above_threshold_run Hcmp) as (o & s' & evs & Hrun & Htr & Hev & _).
    rewrite Hrun; simpl. rewrite Htr. split.
    + apply in_or_app. right. simpl. right. left. reflexivity.
    + rewrite !cleans_app, Hev. reflexivity.
Qed.

(** C5: when the cleanup callback answers with an error, the cycle
    returns that error behind the prefix of [fmt.Errorf("clean: %v", err)]
    and the volume has been probed once, not twice. *)
Theorem clean_error_is_wrapped w' e :
  float64_lt (usedRatio_of du) (Threshold (self s)) = false ->
  f (world s) = (Returns (Some e), w') ->
  exists s',
    maintainDiskUsage s = (Returns (Some (mkError ("clean: " ++ Error e))), s') /\
    cleans (trace s') = (cleans (trace s) + 1)%nat /\
    probes (trace s') = (probes (trace s) + 1)%nat.
Proof.
  intros Hlt Hf. destruct (diskUsage_inv _ _ _ _ Hprobe) as (fs & Hfs & -> & ->).
  rewrite (maintainDiskUsage_run s lg f Hready). unfold cycle_run.
  rewrite Hfs, Hlt, Hf. eexists. split; [reflexivity|].
  simpl. rewrite cleans_app, probes_app. split; reflexivity.
Qed.

(** C6: when the cleanup succeeds and the probe after it fails, the
    cycle returns the error of that probe, and its events end with the
    failed probe: nothing is logged about cleaned space or freed
    megabytes. *)
Theorem failed_reprobe_reports_nothing w' err :
  float64_lt (usedRatio_of du) (Threshold (self s)) = false ->
  f (world s) = (Returns None, w') ->
  syscall_Statfs (Volume (self s)) w' = inr err ->
  exists s',
    maintainDiskUsage s = (Returns (Some err), s') /\
    trace s' = (trace s ++
      [EvStatfs (Volume (self s)); warn_above lg du (Threshold (self s));
       EvClean; EvStatfs (Volume (self s))])%list /\
    logs msg_cleaned (trace s') = logs msg_cleaned (trace s).
Proof.
  intros Hlt Hf Herr.
  destruct (diskUsage_inv _ _ _ _ Hprobe) as (fs & Hfs & -> & ->).
  rewrite (maintainDiskUsage_run s lg f Hready). unfold cycle_run.
  rewrite Hfs, Hlt, Hf, Herr. eexists. split; [reflexivity|].
  split; [reflexivity|].
  simpl. rewrite logs_app. unfold logs at 2. simpl. lia.
Qed.

(** C9: nothing guards the division. A probe whose total is below
    1,048,576 bytes gives a zero [totalMB]; the ratio is then not less
    than any threshold whatever, and the cleanup callback is invoked:
    one call is recorded, the world is the one the callback made of the
    world it was given, and the cycle ends as the callback's answer has
    it. *)
Theorem small_volume_always_cleans :
  all du < 1048576 ->
  totalMB_of du = 0 /\
  (forall t : float64, float64_lt (usedRatio_of du) t = false) /\
  cleans (trace (snd (maintainDiskUsage s))) = (cleans (trace s) + 1)%nat /\
  world (snd (maintainDiskUsage s)) = snd (f (world s)) /\
  follows_callback (fst (f (world s))) (fst (maintainDiskUsage s)).
Proof.
  intros Hsmall.
  assert (Hz : totalMB_of du = 0).
  { destruct (diskUsage_inv _ _ _ _ Hprobe) as (fs & _ & Hd & _).
    pose proof (probed_range fs) as ((Ha & _) & _). rewrite <- Hd in Ha.
    apply div_MB_small. lia. }
  assert (Hnot : forall t, float64_lt (usedRatio_of du) t = false).
  { intros t. unfold usedRatio_of. rewrite Hz.
    apply float64_div_zero_not_lt, float64_of_int_unsigned.
    apply usedMB_of_range. }
  split; [exact Hz|]. split; [exact Hnot|].
  apply callback_applied, Hnot.
Qed.

(** C10: after a successful cleanup and a successful second probe, the
    logged [freed_mb] is the difference of the two megabyte counts
    modulo 2^64; when usage has grown it is 2^64 less the growth, hence
    within 2^44 of 2^64. *)
Theorem freed_mb_wraps w' fs' :
  float64_lt (usedRatio_of du) (Threshold (self s)) = false ->
  f (world s) = (Returns None, w') ->
  syscall_Statfs (Volume (self s)) w' = inl fs' ->
  let before := usedMB_of du in
  let later := usedMB_of (probed fs') in
  let freed := (before - later) mod 2 ^ 64 in
  exists s',
    maintainDiskUsage s = (Returns None, s') /\
    trace s' = (trace s ++
      [EvStatfs (Volume (self s)); warn_above lg du (Threshold (self s));
       EvClean; EvStatfs (Volume (self s));
       EvLog lg InfoLevel msg_cleaned
         [zap_Uint64 "used_mb" later; zap_Uint64 "freed_mb" freed]])%list /\
    (later <= before -> freed = before - later) /\
    (before < later ->
     freed = 2 ^ 64 - (later - before) /\ 2 ^ 64 - 2 ^ 44 < freed < 2 ^ 64).
Proof.
  intros Hlt Hf Hfs'. cbv zeta.
  pose proof usedMB_of_range as Hb.
  assert (Hl : 0 <= usedMB_of (probed fs') < 2 ^ 44)
    by apply div_MB_range, probed_range.
  destruct (diskUsage_inv _ _ _ _ Hprobe) as (fs & Hfs & -> & ->).
  rewrite (maintainDiskUsage_run s lg f Hready). unfold cycle_run.
  rewrite Hfs, Hlt, Hf, Hfs'. eexists. split; [reflexivity|].
  split; [reflexivity|].
  split; intros Hcmp.
  - apply Z.mod_small. lia.
  - assert (E : (usedMB_of (probed fs) - usedMB_of (probed fs')) mod 2 ^ 64 =
                2 ^ 64 - (usedMB_of (probed fs') - usedMB_of (probed fs))).
    { replace (usedMB_of (probed fs) - usedMB_of (probed fs'))
        with ((2 ^ 64 - (usedMB_of (probed fs') - usedMB_of (probed fs)))
              + (-1) * 2 ^ 64) by ring.
      rewrite Z.mod_add by lia. apply Z.mod_small. lia. }
    rewrite E. lia.
Qed.

End Cycle.

(** ** The entry point *)

Lemma SFcompare_None (x y : float64) :
  SFcompare x y = None -> x = float64_NaN \/ y = float64_NaN.
Proof.
  destruct x as [sx|sx| |sx mx ex], y as [sy|sy| |sy my ey]; simpl;
    intros Hc; auto; discriminate.
Qed.

(** Away from NaN, the test of [Maintain] on the threshold is the
    negation of membership in the open interval (0,1). *)
Lemma threshold_test_negb (t : float64) :
  t <> float64_NaN ->
  float64_le t (float64_of_int 0) || float64_ge t (float64_of_int 1) =
  negb (in_open_unit_interval t).
Proof.
  intros Hnan. unfold in_open_unit_interval.
  assert (H0 : SFcompare (float64_of_int 0) t <> None).
  { intros Hc. apply SFcompare_None in Hc. destruct Hc; [discriminate|auto]. }
  assert (H1 : SFcompare t (float64_of_int 1) <> None).
  { intros Hc. apply SFcompare_None in Hc. destruct Hc; [auto|discriminate]. }
  change (float64_le t (float64_of_int 0))
    with (float64_ge (float64_of_int 0) t).
  rewrite (float64_ge_negb_lt _ _ H0), (float64_ge_negb_lt _ _ H1).
  now rewrite negb_andb.
Qed.

Section Entry.

Context {World : Type} `{Platform World}.

Lemma Maintain_defaults_run (s : State World) :
  Maintain_defaults s =
  (Returns tt, mkState (with_defaults (self s)) (world s) (trace s)).
Proof.
  unfold with_defaults. go_state s.
  cbv [Maintain_defaults bind ret get_self put_self set_Volume
       set_Threshold set_CheckInterval set_Logger
       self world trace mu Volume Threshold Logger Clean CheckInterval].
  destruct (String.eqb v ""); destruct (_ || _); destruct (d <=? 0);
    destruct l; reflexivity.
Qed.

Lemma Maintain_announce_run (s : State World) lg :
  Logger (self s) = Some lg ->
  Maintain_announce s =
  (Returns tt, after s (world s) [announcement (self s) lg]).
Proof.
  intros Hl. unfold announcement. go_state s.
  cbv [Maintain_announce Logger_log bind get_self emit after
       self world trace mu Volume Threshold Logger Clean CheckInterval].
  reflexivity.
Qed.

(** What [Maintain] has done when its first cycle starts: the defaults
    are in place and the start of the loop has been announced; nothing
    else has happened. *)
Lemma Maintain_before_first_cycle ready (s : State World) f :
  Clean (self s) = Some f ->
  Maintain ready s =
  (Maintain_cycle ;;
   m <- get_self ;;
   time_NewTicker (CheckInterval m) ;;
   Maintain_loop ready)%go
    (mkState (with_defaults (self s)) (world s)
       (trace s ++ [announcement (with_defaults (self s))
                      (effective_Logger (self s))])).
Proof.
  intros Hc. unfold Maintain at 1.
  unfold bind at 1. unfold get_self at 1. rewrite Hc.
  unfold bind at 1. rewrite Maintain_defaults_run.
  unfold bind at 1.
  rewrite (Maintain_announce_run _ (effective_Logger (self s))).
  - reflexivity.
  - unfold effective_Logger. simpl. destruct (Logger (self s)); reflexivity.
Qed.

(** The defaults make the maintainer ready for its cycles. *)
Lemma with_defaults_ready (s : State World) f w t :
  Clean (self s) = Some f -> mu (self s) = false ->
  ready_with (mkState (with_defaults (self s)) w t)
    (effective_Logger (self s)) f.
Proof.
  intros Hc Hm. unfold ready_with, effective_Logger. simpl.
  repeat split; auto. destruct (Logger (self s)); reflexivity.
Qed.

(** The parts of the defaulting that hold for every configuration: the
    volume, the interval, and every threshold that is a number. *)
Lemma with_defaults_fields (m : Maintainer World) :
  (Volume m = "" -> Volume (with_defaults m) = "/") /\
  (Volume m <> "" -> Volume (with_defaults m) = Volume m) /\
  (CheckInterval m <= 0 ->
   CheckInterval (with_defaults m) = 10 * (60 * 1000000000)) /\
  (0 < CheckInterval m -> CheckInterval (with_defaults m) = CheckInterval m) /\
  (Threshold m <> float64_NaN ->
   in_open_unit_interval (Threshold m) = false ->
   Threshold (with_defaults m) = defaultThreshold) /\
  (in_open_unit_interval (Threshold m) = true ->
   Threshold (with_defaults m) = Threshold m).
Proof.
  unfold with_defaults; cbn [Volume CheckInterval Threshold].
  split; [intros ->; reflexivity|].
  split; [intros Hv; apply String.eqb_neq in Hv; now rewrite Hv|].
  split; [intros Hd; apply Z.leb_le in Hd; now rewrite Hd|].
  split; [intros Hd; apply Z.leb_gt in Hd; now rewrite Hd|].
  split.
  - intros Hnan Hout. rewrite (threshold_test_negb _ Hnan), Hout. reflexivity.
  - intros Hin.
    assert (Hnan : Threshold m <> float64_NaN).
    { intros E. rewrite E in Hin. discriminate. }
    rewrite (threshold_test_negb _ Hnan), Hin. reflexivity.
Qed.

(** The test on the threshold is false at NaN on both sides, so NaN
    stays, on every platform and in every world. *)
Lemma with_defaults_NaN (m : Maintainer World) :
  Threshold m = float64_NaN -> Threshold (with_defaults m) = float64_NaN.
Proof.
  intros E. unfold with_defaults; cbn [Threshold]. rewrite E. reflexivity.
Qed.

(** C8: with a nil cleanup callback [Maintain] panics at once: no
    default has been applied, nothing has been logged or probed. *)
Theorem Maintain_nil_Clean_panics ready (s : State World) :
  Clean (self s) = None ->
  Maintain ready s = (Panics "nil Clean function", s).
Proof.
  intros Hc. unfold Maintain, bind, get_self, panic. rewrite Hc. reflexivity.
Qed.

End Entry.

(** ** The loop *)

Section Loop.

Context {World : Type} `{Platform World}.

Lemma Logger_log_run (s : State World) lg lvl msg fields :
  Logger (self s) = Some lg ->
  Logger_log lvl msg fields s =
  (Returns tt, after s (world s) [EvLog lg lvl msg fields]).
Proof.
  intros Hl. unfold Logger_log, bind, get_self. rewrite Hl. reflexivity.
Qed.

Lemma ready_with_self (s s' : State World) lg f :
  self s' = self s -> ready_with s lg f -> ready_with s' lg f.
Proof. unfold ready_with. intros ->. auto. Qed.

Lemma with_defaults_interval (m : Maintainer World) :
  0 < CheckInterval (with_defaults m).
Proof.
  unfold with_defaults; cbn [CheckInterval].
  destruct (CheckInterval m <=? 0) eqn:E.
  - reflexivity.
  - now apply Z.leb_gt in E.
Qed.

End Loop.

(** * Examples: the theorems at concrete disks *)

Lemma tidy_ready f w : ready_with (start (tidy f) w) zap_NewNop f.
Proof. repeat split. Qed.

Lemma diskUsage_formulas_witness :
  (exists d,
     fst (@diskUsage Disk linux "/" (start (tidy (cleaner roomy_disk None))
                                           reserved_disk))
       = Returns (d, None) /\
     all d = 104857600 /\ available d = 5242880 /\ free d = 10485760 /\
     used d = 94371840) /\
  (exists d,
     fst (@diskUsage Disk darwin "/" (start (tidy (cleaner roomy_disk None))
                                            reserved_disk))
       = Returns (d, None) /\
     all d = 104857600 /\ available d = 5242880 /\ free d = 10485760 /\
     used d = 99614720).
Proof.
  split.
  - destruct (@diskUsage_formulas Disk linux "/"
                (start (tidy (cleaner roomy_disk None)) reserved_disk)
                (mkStatfs 25600 2560 1280 4096) eq_refl)
      as (d & s' & Hrun & Ha & Hv & Hf & Hu & _).
    exists d. rewrite Hrun, Hu, Ha, Hv, Hf. repeat split.
  - destruct (@diskUsage_formulas Disk darwin "/"
                (start (tidy (cleaner roomy_disk None)) reserved_disk)
                (mkStatfs 25600 2560 1280 4096) eq_refl)
      as (d & s' & Hrun & _ & _ & _ & _ & Hexact).
    destruct Hexact as (Ha & Hv & Hf & Hu).
    { unfold fits_uint64, U64.modulus; simpl; lia. }
    exists d. rewrite Hrun, Hu, Ha, Hv, Hf. repeat split.
Defined.

(** The invariant of C4 as it was stated: a probe of a file system that
    reports two free blocks out of one succeeds with used > total. *)
Lemma used_exceeds_total :
  exists d s',
    @diskUsage Disk linux "/" (start (tidy (cleaner roomy_disk None)) odd_disk)
      = (Returns (d, None), s') /\
    all d = 4096 /\ free d = 8192 /\ used d = 18446744073709547520 /\
    all d < used d.
Proof.
  eexists _, _. split; [reflexivity|]. repeat split.
Qed.

Lemma used_le_total_iff_witness :
  used (@probed Disk linux (mkStatfs 25600 1280 1280 4096))
    <= all (@probed Disk linux (mkStatfs 25600 1280 1280 4096)).
Proof.
  apply (proj2 (@used_le_total_iff Disk linux "/"
                  (start (tidy (cleaner roomy_disk None)) full_disk)
                  _ _ eq_refl)).
  vm_compute. discriminate.
Defined.

Lemma cleanup_once_or_never_witness :
  (cleans (trace (snd (@maintainDiskUsage Disk linux
            (start (tidy (cleaner roomy_disk None)) full_disk)))) = 1%nat /\
   world (snd (@maintainDiskUsage Disk linux
            (start (tidy (cleaner roomy_disk None)) full_disk))) = roomy_disk /\
   exists r,
     fst (@maintainDiskUsage Disk linux
            (start (tidy (cleaner roomy_disk None)) full_disk)) = Returns r) /\
  (cleans (trace (snd (@maintainDiskUsage Disk linux
            (start (tidy (panicking "boom")) roomy_disk)))) = 0%nat /\
   @maintainDiskUsage Disk linux (start (tidy (panicking "boom")) roomy_disk)
   = (Returns None,
      after (start (tidy (panicking "boom")) roomy_disk) roomy_disk
        [EvStatfs "/"]) /\
   world (after (start (tidy (panicking "boom")) roomy_disk) roomy_disk
            [EvStatfs "/"])
   = world (start (tidy (panicking "boom")) roomy_disk)).
Proof.
  split.
  - exact (proj1 (@cleanup_once_or_never Disk linux
                    (start (tidy (cleaner roomy_disk None)) full_disk)
                    zap_NewNop (cleaner roomy_disk None) (tidy_ready _ _)
                    _ _ eq_refl) eq_refl).
  - exact (proj2 (@cleanup_once_or_never Disk linux
                    (start (tidy (panicking "boom")) roomy_disk)
                    zap_NewNop (panicking "boom") (tidy_ready _ _)
                    _ _ eq_refl) eq_refl).
Defined.

Lemma ratio_truncates_before_dividing_witness :
  In (EvLog zap_NewNop WarnLevel msg_above
        [zap_Uint64 "total_mb" 100; zap_Uint64 "used_mb" 95;
         zap_Float64 "used_ratio"
           (float64_div (float64_of_int 95) (float64_of_int 100));
         zap_Float64 "used_threshold" defaultThreshold])
     (trace (snd (@maintainDiskUsage Disk linux
        (start (tidy (cleaner roomy_disk None)) full_disk)))) /\
  @maintainDiskUsage Disk linux
    (start (tidy (cleaner roomy_disk None)) roomy_disk)
  = (Returns None,
     after (start (tidy (cleaner roomy_disk None)) roomy_disk) roomy_disk
       [EvStatfs "/"]).
Proof.
  split.
  - apply (proj2 (@ratio_truncates_before_dividing Disk linux
                    (start (tidy (cleaner roomy_disk None)) full_disk)
                    zap_NewNop (cleaner roomy_disk None) (tidy_ready _ _)
                    _ _ eq_refl)).
    reflexivity.
  - apply (proj1 (@ratio_truncates_before_dividing Disk linux
                    (start (tidy (cleaner roomy_disk None)) roomy_disk)
                    zap_NewNop (cleaner roomy_disk None) (tidy_ready _ _)
                    _ _ eq_refl)).
    reflexivity.
Defined.

(** The order matters: of 2,097,152 bytes all but one are used, yet the
    truncated counts are 1 MB of 2 MB, half, and the cycle finds the disk
    below the default threshold; the ratio of the byte counts is not. *)
Lemma truncation_changes_the_decision :
  ratio_of_truncated_megabytes 2097151 2097152 =
    float64_div (float64_of_int 1) (float64_of_int 2) /\
  float64_lt (ratio_of_truncated_megabytes 2097151 2097152) defaultThreshold
    = true /\
  float64_lt (float64_div (float64_of_int 2097151) (float64_of_int 2097152))
             defaultThreshold = false.
Proof. repeat split. Qed.

Lemma clean_error_is_wrapped_witness :
  exists s',
    @maintainDiskUsage Disk linux
      (start (tidy (cleaner full_disk (Some rm_failed))) full_disk)
    = (Returns (Some (mkError "clean: rm: permission denied")), s') /\
    cleans (trace s') = 1%nat /\ probes (trace s') = 1%nat.
Proof.
  exact (@clean_error_is_wrapped Disk linux
           (start (tidy (cleaner full_disk (Some rm_failed))) full_disk)
           zap_NewNop (cleaner full_disk (Some rm_failed)) (tidy_ready _ _)
           _ _ eq_refl full_disk rm_failed eq_refl eq_refl).
Defined.

Lemma failed_reprobe_reports_nothing_witness :
  exists s',
    @maintainDiskUsage Disk linux
      (start (tidy (cleaner unmounted None)) full_disk)
    = (Returns (Some ENOENT), s') /\
    trace s' =
      [EvStatfs "/";
       warn_above zap_NewNop
         (@probed Disk linux (mkStatfs 25600 1280 1280 4096)) defaultThreshold;
       EvClean; EvStatfs "/"] /\
    logs msg_cleaned (trace s') = 0%nat.
Proof.
  exact (@failed_reprobe_reports_nothing Disk linux
           (start (tidy (cleaner unmounted None)) full_disk)
           zap_NewNop (cleaner unmounted None) (tidy_ready _ _)
           _ _ eq_refl unmounted ENOENT eq_refl eq_refl eq_refl).
Defined.

Lemma small_volume_always_cleans_witness :
  totalMB_of (@probed Disk linux (mkStatfs 255 10 10 4096)) = 0 /\
  (forall t : float64,
     float64_lt (usedRatio_of (@probed Disk linux (mkStatfs 255 10 10 4096))) t
     = false) /\
  cleans (trace (snd (@maintainDiskUsage Disk linux
           (start (tidy (cleaner full_disk None)) tiny_disk)))) = 1%nat /\
  world (snd (@maintainDiskUsage Disk linux
           (start (tidy (cleaner full_disk None)) tiny_disk))) = full_disk /\
  exists r,
    fst (@maintainDiskUsage Disk linux
           (start (tidy (cleaner full_disk None)) tiny_disk)) = Returns r.
Proof.
  exact (@small_volume_always_cleans Disk linux
           (start (tidy (cleaner full_disk None)) tiny_disk)
           zap_NewNop (cleaner full_disk None) (tidy_ready _ _)
           _ _ eq_refl eq_refl).
Defined.

Lemma freed_mb_wraps_witness :
  exists s',
    @maintainDiskUsage Disk linux
      (start (tidy (cleaner fuller_disk None)) full_disk)
    = (Returns None, s') /\
    In (EvLog zap_NewNop InfoLevel msg_cleaned
          [zap_Uint64 "used_mb" 99;
           zap_Uint64 "freed_mb" 18446744073709551612])
       (trace s').
Proof.
  destruct (@freed_mb_wraps Disk linux
              (start (tidy (cleaner fuller_disk None)) full_disk)
              zap_NewNop (cleaner fuller_disk None) (tidy_ready _ _)
              _ _ eq_refl fuller_disk (mkStatfs 25600 256 256 4096)
              eq_refl eq_refl eq_refl)
    as (s' & Hrun & Htr & _ & _).
  exists s'. split; [exact Hrun|].
  rewrite Htr. simpl. do 4 right. left. reflexivity.
Defined.

Lemma Maintain_nil_Clean_panics_witness :
  @Maintain Disk linux [TickerC; CtxDone]
    (start (configured "" 0 float64_NaN None None) full_disk)
  = (Panics "nil Clean function",
     start (configured "" 0 float64_NaN None None) full_disk).
Proof.
  exact (@Maintain_nil_Clean_panics Disk linux [TickerC; CtxDone]
           (start (configured "" 0 float64_NaN None None) full_disk) eq_refl).
Defined.

(** C7 at a threshold that is not a number. NaN lies outside the open
    interval (0,1), yet [Maintain] keeps it where it puts the defaults
    for the empty volume and the zero interval; the announcement shows
    it, and the first cycle calls the cleanup on a disk that is 80% used,
    since no ratio is less than NaN. *)
Theorem Maintain_keeps_NaN_threshold :
  in_open_unit_interval float64_NaN = false /\
  @Maintain Disk linux [CtxDone] (start NaN_maintainer roomy_disk) =
  (Returns tt,
   mkState
     (mkMaintainer "/" 600000000000 float64_NaN
        (Some (cleaner roomy_disk None)) (Some zap_NewNop) false)
     roomy_disk
     [EvLog zap_NewNop InfoLevel msg_starting
        [zap_String "volume" "/"; zap_Float64 "threshold" float64_NaN;
         zap_Duration "interval" 600000000000];
      EvStatfs "/";
      EvLog zap_NewNop WarnLevel msg_above
        [zap_Uint64 "total_mb" 100; zap_Uint64 "used_mb" 80;
         zap_Float64 "used_ratio"
           (float64_div (float64_of_int 80) (float64_of_int 100));
         zap_Float64 "used_threshold" float64_NaN];
      EvClean;
      EvStatfs "/";
      EvLog zap_NewNop InfoLevel msg_cleaned
        [zap_Uint64 "used_mb" 80; zap_Uint64 "freed_mb" 0];
      EvNewTicker 600000000000;
      EvTickerStop]).
Proof. split; reflexivity. Qed.

(** * Further properties of the cycle *)

Lemma tickers_app t u : tickers (t ++ u) = (tickers t ++ tickers u)%list.
Proof. unfold tickers. apply filter_app. Qed.

Section CycleShape.

Context {World : Type} `{Platform World}.

(** What every cycle of a ready maintainer has in common: the first
    event is the probe of the volume, and what follows holds at most one
    more probe and at most one call of the cleanup, the second probe only
    after the cleanup; the world moves only through the cleanup; the
    maintainer is as before unless the callback holds the cycle for ever;
    and the cycle returns when the callback does. *)
Lemma cycle_shape (s : State World) lg f :
  ready_with s lg f ->
  exists o s' evs,
    maintainDiskUsage s = (o, s') /\
    trace s' = (trace s ++ EvStatfs (Volume (self s)) :: evs)%list /\
    (probes evs <= 1)%nat /\ (cleans evs <= 1)%nat /\
    (probes evs = 1%nat -> cleans evs = 1%nat) /\
    tickers evs = [] /\ logs msg_checking evs = 0%nat /\
    (cleans evs = 0%nat -> world s' = world s) /\
    (o <> Blocked -> self s' = self s) /\
    (always_returns f -> exists e, o = Returns e).
Proof.
  intros Hready.
  rewrite (maintainDiskUsage_run s lg f Hready). unfold cycle_run.
  destruct (syscall_Statfs (Volume (self s)) (world s)) as [fs|err].
  - destruct (float64_lt _ _).
    + exists (Returns None), (after s (world s) [EvStatfs (Volume (self s))]), [].
      repeat split; eauto; discriminate.
    + destruct (f (world s)) as [[[e|]|v|] w'] eqn:Ef.
      * eexists _, _, [_; _]. split; [reflexivity|].
        unfold warn_above. repeat split; eauto; simpl; discriminate.
      * destruct (syscall_Statfs (Volume (self s)) w') as [fs'|err'].
        -- eexists _, _, [_; _; _; _]. split; [reflexivity|].
           unfold warn_above, info_cleaned.
           repeat split; eauto; simpl; discriminate.
        -- eexists _, _, [_; _; _]. split; [reflexivity|].
           unfold warn_above. repeat split; eauto; simpl; discriminate.
      * eexists _, _, [_; _]. split; [reflexivity|].
        unfold warn_above. repeat split; eauto; try (simpl; discriminate).
        intros Hret. destruct (Hret (world s)) as (r & Hr).
        rewrite Ef in Hr. discriminate.
      * eexists _, _, [_; _]. split; [reflexivity|].
        unfold warn_above. repeat split; eauto; try (simpl; discriminate).
        -- intros Hnb. congruence.
        -- intros Hret. destruct (Hret (world s)) as (r & Hr).
           rewrite Ef in Hr. discriminate.
  - exists (Returns (Some err)),
      (after s (world s) [EvStatfs (Volume (self s))]), [].
    repeat split; eauto; discriminate.
Qed.

(** X1: when the first probe of a cycle fails, the cycle returns the
    error of the system call as it is; the probe is its only event, so
    the cleanup is not called and nothing is logged, and the world and
    the maintainer are as before. *)
Theorem probe_failure_ends_cycle (s : State World) lg f err :
  ready_with s lg f ->
  syscall_Statfs (Volume (self s)) (world s) = inr err ->
  maintainDiskUsage s =
  (Returns (Some err),
   mkState (self s) (world s) (trace s ++ [EvStatfs (Volume (self s))])).
Proof.
  intros Hready Herr.
  rewrite (maintainDiskUsage_run s lg f Hready). unfold cycle_run.
  rewrite Herr. reflexivity.
Qed.

(** X2: a cycle probes the volume once or twice and calls the cleanup
    at most once; it probes twice only when it has called the cleanup. *)
Theorem cycle_event_bounds (s : State World) lg f :
  ready_with s lg f ->
  let t' := trace (snd (maintainDiskUsage s)) in
  (probes (trace s) + 1 <= probes t' <= probes (trace s) + 2)%nat /\
  (cleans (trace s) <= cleans t' <= cleans (trace s) + 1)%nat /\
  (probes t' = (probes (trace s) + 2)%nat ->
   cleans t' = (cleans (trace s) + 1)%nat).
Proof.
  intros Hready. cbv zeta.
  destruct (cycle_shape s lg f Hready)
    as (o & s' & evs & Hrun & Htr & Hp & Hc & Hpc & _).
  rewrite Hrun; simpl. rewrite Htr.
  change (EvStatfs (Volume (self s)) :: evs)
    with ([EvStatfs (Volume (self s))] ++ evs)%list.
  rewrite !probes_app, !cleans_app.
  change (probes [EvStatfs (Volume (self s))]) with 1%nat.
  change (cleans [EvStatfs (Volume (self s))]) with 0%nat.
  repeat split; lia.
Qed.

(** X3: the deferred unlock runs on every exit of a cycle. When the
    cycle returns the mutex is free; the only panic a cycle ends in is
    the callback's own, and then too the mutex is free; a cycle stays
    blocked only when the callback never returns, and then the mutex
    stays held. *)
Theorem cycle_unlocks_on_every_exit (s : State World) lg f :
  ready_with s lg f ->
  match fst (maintainDiskUsage s) with
  | Returns _ => mu (self (snd (maintainDiskUsage s))) = false
  | Panics v =>
    mu (self (snd (maintainDiskUsage s))) = false /\
    fst (f (world s)) = Panics v
  | Blocked =>
    mu (self (snd (maintainDiskUsage s))) = true /\
    fst (f (world s)) = Blocked
  end.
Proof.
  intros Hready. pose proof Hready as (_ & _ & Hm).
  rewrite (maintainDiskUsage_run s lg f Hready). unfold cycle_run.
  destruct (syscall_Statfs (Volume (self s)) (world s)) as [fs|err];
    [|exact Hm].
  destruct (float64_lt _ _); [exact Hm|].
  destruct (f (world s)) as [[[e|]|v|] w']; simpl; auto.
  destruct (syscall_Statfs (Volume (self s)) w'); exact Hm.
Qed.

(** X15: with a threshold that is NaN, every cycle whose probe succeeds
    invokes the cleanup, whatever the usage, since no ratio is less than
    NaN: one call is recorded, the world is the one the callback made of
    the world it was given, and the cycle ends as the callback's answer
    has it. *)
Theorem NaN_threshold_always_cleans (s : State World) lg f fs :
  ready_with s lg f ->
  syscall_Statfs (Volume (self s)) (world s) = inl fs ->
  Threshold (self s) = float64_NaN ->
  cleans (trace (snd (maintainDiskUsage s))) = (cleans (trace s) + 1)%nat /\
  world (snd (maintainDiskUsage s)) = snd (f (world s)) /\
  follows_callback (fst (f (world s))) (fst (maintainDiskUsage s)).
Proof.
  intros Hready Hfs Hnan.
  apply (callback_applied s lg f Hready (probed fs)
           (after s (world s) [EvStatfs (Volume (self s))])).
  - now apply diskUsage_ok.
  - rewrite Hnan. apply float64_lt_NaN_r.
Qed.

End CycleShape.

(** * Further properties of the probe *)

Section ProbeMore.

Context {World : Type} `{Platform World}.

(** X12: the probe makes one system call and always returns. It
    returns an error exactly when the call fails, the error is the call's
    own, and the status beside an error is the zero value. *)
Theorem diskUsage_error_iff path (s : State World) :
  exists d e,
    diskUsage path s =
      (Returns (d, e),
       mkState (self s) (world s) (trace s ++ [EvStatfs path])) /\
    (forall err, e = Some err <-> syscall_Statfs path (world s) = inr err) /\
    (e <> None -> d = diskStatus_zero).
Proof.
  destruct (syscall_Statfs path (world s)) as [fs|err0] eqn:E.
  - exists (probed fs), None. split; [now apply diskUsage_ok|].
    split; [|congruence]. intros err. split; discriminate.
  - exists diskStatus_zero, (Some err0). split; [now apply diskUsage_err|].
    split; [|reflexivity]. intros err. split; congruence.
Qed.

(** X13: in the status of a successful probe, used and the count that
    the platform subtracted (available on darwin, free elsewhere) add up
    to the total again, in 64-bit arithmetic, whether or not the
    subtraction wrapped. *)
Theorem used_plus_subtracted_is_total path (s : State World) d s' :
  diskUsage path s = (Returns (d, None), s') ->
  U64.wrap (used d + (if String.eqb GOOS "darwin" then available d else free d))
  = all d.
Proof.
  intros Hrun. destruct (diskUsage_inv _ _ _ _ Hrun) as (fs & _ & -> & _).
  destruct (probed_range fs) as (Ha & _).
  assert (Hadd : forall a x, U64.in_range a ->
                             U64.wrap (U64.sub a x + x) = a).
  { intros a x Hr. unfold U64.sub, U64.wrap.
    rewrite Z.add_mod_idemp_l by (unfold U64.modulus; lia).
    replace (a - x + x) with a by ring. now apply wrap_small. }
  unfold probed in *; simpl in *.
  destruct (String.eqb GOOS "darwin"); now apply Hadd.
Qed.

End ProbeMore.

(** X14: for one and the same answer of the system call, without
    overflow, the darwin branch reports as used what the other platforms
    report plus the bytes that are free but not available; so it reports
    no less whenever the available blocks do not exceed the free ones. *)
Theorem darwin_counts_reserved_as_used {World : Type}
  (mac other : Platform World) path (s : State World) fs :
  @GOOS World mac = "darwin" ->
  @GOOS World other <> "darwin" ->
  @syscall_Statfs World mac path (world s) = inl fs ->
  @syscall_Statfs World other path (world s) = inl fs ->
  fits_uint64 fs ->
  exists d1 d2 s1 s2,
    @diskUsage World mac path s = (Returns (d1, None), s1) /\
    @diskUsage World other path s = (Returns (d2, None), s2) /\
    used d1 = used d2 + (free d2 - available d2) /\
    (Bavail fs <= Bfree fs -> used d2 <= used d1).
Proof.
  intros Hmac Hother Hfs1 Hfs2 Hfit.
  apply String.eqb_eq in Hmac. apply String.eqb_neq in Hother.
  exists (@probed World mac fs), (@probed World other fs).
  eexists _, _.
  split; [now apply diskUsage_ok|]. split; [now apply diskUsage_ok|].
  destruct (@probed_exact World mac fs Hfit) as (_ & _ & _ & Hu1).
  destruct (@probed_exact World other fs Hfit) as (_ & Hv2 & Hf2 & Hu2).
  rewrite Hmac in Hu1. rewrite Hother in Hu2.
  rewrite Hu1, Hu2, Hv2, Hf2.
  destruct Hfit as (Hbs & _).
  split; [ring|]. intros Hle. nia.
Qed.

(** * Further properties of the defaults *)

Section DefaultsMore.

Context {World : Type} `{Platform World}.

Lemma with_defaults_threshold (m : Maintainer World) :
  Threshold (with_defaults m) = float64_NaN \/
  in_open_unit_interval (Threshold (with_defaults m)) = true.
Proof.
  unfold with_defaults; cbn [Threshold].
  destruct (float64_le (Threshold m) (float64_of_int 0)
            || float64_ge (Threshold m) (float64_of_int 1)) eqn:E.
  - right. reflexivity.
  - destruct (Threshold m) as [sg|sg| |sg mt et] eqn:Et; [| |now left|];
      right; rewrite threshold_test_negb in E by discriminate;
      now apply negb_false_iff in E.
Qed.

Lemma with_defaults_idem (m : Maintainer World) :
  with_defaults (with_defaults m) = with_defaults m.
Proof.
  unfold with_defaults at 1.
  assert (Hv : String.eqb (Volume (with_defaults m)) "" = false).
  { unfold with_defaults; cbn [Volume].
    destruct (String.eqb (Volume m) "") eqn:E; [reflexivity|exact E]. }
  assert (Hd : (CheckInterval (with_defaults m) <=? 0) = false).
  { apply Z.leb_gt, with_defaults_interval. }
  assert (Ht : float64_le (Threshold (with_defaults m)) (float64_of_int 0)
               || float64_ge (Threshold (with_defaults m)) (float64_of_int 1)
               = false).
  { destruct (with_defaults_threshold m) as [E|E].
    - rewrite E. reflexivity.
    - rewrite threshold_test_negb, E; [reflexivity|].
      intros N. rewrite N in E. discriminate. }
  rewrite Hv, Hd, Ht.
  unfold with_defaults; simpl. destruct (Logger m); reflexivity.
Qed.

(** X10: the defaults leave an effective configuration: the volume is
    not empty, the interval is positive, a logger is set, and the
    threshold lies in the open interval (0,1) or is NaN; the callback,
    the mutex, the world and the events are not touched. *)
Theorem Maintain_defaults_effective (s : State World) :
  exists s',
    Maintain_defaults s = (Returns tt, s') /\
    Volume (self s') <> "" /\
    0 < CheckInterval (self s') /\
    Logger (self s') <> None /\
    (Threshold (self s') = float64_NaN \/
     in_open_unit_interval (Threshold (self s')) = true) /\
    Clean (self s') = Clean (self s) /\ mu (self s') = mu (self s) /\
    world s' = world s /\ trace s' = trace s.
Proof.
  eexists. split; [apply Maintain_defaults_run|]. simpl.
  split.
  { destruct (String.eqb (Volume (self s)) "") eqn:E.
    - discriminate.
    - now apply String.eqb_neq. }
  split; [apply with_defaults_interval|].
  split; [destruct (Logger (self s)); discriminate|].
  split; [apply with_defaults_threshold|].
  repeat split.
Qed.

(** X11: applying the defaults twice is applying them once: a
    maintainer that [Maintain] has run on is not changed by a second
    start. *)
Theorem Maintain_defaults_twice (s : State World) :
  (Maintain_defaults ;; Maintain_defaults)%go s = Maintain_defaults s.
Proof.
  unfold bind. rewrite !Maintain_defaults_run. simpl.
  now rewrite with_defaults_idem.
Qed.

End DefaultsMore.

(** * Further properties of the loop *)

Lemma ticks_served_app_done pre post :
  ticks_served (pre ++ CtxDone :: post) = ticks_served pre.
Proof.
  induction pre as [|[|] pre IH]; simpl; auto.
Qed.

Section LoopShape.

Context {World : Type} `{Platform World}.

Lemma bind_ext {A B : Type} (c : Go World A) (k1 k2 : A -> Go World B) s :
  (forall a s', k1 a s' = k2 a s') -> bind c k1 s = bind c k2 s.
Proof.
  intros Hk. unfold bind. destruct (c s) as [[a|v|] s']; auto.
Qed.

(** A cycle of the loop: the cycle, and at most one log of its error.
    It returns when the cycle does, and then the maintainer is as
    before. *)
Lemma Maintain_cycle_shape (s : State World) lg f :
  ready_with s lg f ->
  exists o s' evs,
    Maintain_cycle s = (o, s') /\
    trace s' = (trace s ++ EvStatfs (Volume (self s)) :: evs)%list /\
    (probes evs <= 1)%nat /\ (cleans evs <= 1)%nat /\
    tickers evs = [] /\
    (o = Returns tt -> self s' = self s) /\
    (always_returns f -> o = Returns tt).
Proof.
  intros Hready.
  destruct (cycle_shape s lg f Hready)
    as (o & s1 & evs & Hrun & Htr & Hp & Hc & _ & Ht & _ & _ & Hself & Hret).
  unfold Maintain_cycle, bind. rewrite Hrun.
  destruct o as [[err|]|v|].
  - assert (Hs : self s1 = self s) by (apply Hself; discriminate).
    rewrite (Logger_log_run s1 lg) by (rewrite Hs; apply Hready).
    exists (Returns tt).
    exists (after s1 (world s1) [EvLog lg ErrorLevel msg_checking [zap_Error err]]).
    exists (evs ++ [EvLog lg ErrorLevel msg_checking [zap_Error err]])%list.
    split; [reflexivity|].
    split; [simpl; rewrite Htr, <- app_assoc; reflexivity|].
    rewrite probes_app, cleans_app, tickers_app, Ht.
    change (probes [EvLog lg ErrorLevel msg_checking [zap_Error err]])
      with 0%nat.
    change (cleans [EvLog lg ErrorLevel msg_checking [zap_Error err]])
      with 0%nat.
    repeat split; auto; lia.
  - exists (Returns tt), s1, evs. unfold ret.
    repeat split; auto. intros _. apply Hself. discriminate.
  - exists (Panics v), s1, evs.
    repeat split; auto; try discriminate.
    intros Hr. destruct (Hret Hr) as (e & He). discriminate.
  - exists Blocked, s1, evs.
    repeat split; auto; try discriminate.
    intros Hr. destruct (Hret Hr) as (e & He). discriminate.
Qed.

(** The loop: at most one cycle for each tick that comes before the
    cancellation; with a callback that returns, exactly one, and then the
    stop of the ticker. *)
Lemma Maintain_loop_shape ready :
  forall (s : State World) lg f,
    ready_with s lg f ->
    exists o s' evs,
      Maintain_loop ready s = (o, s') /\
      trace s' = (trace s ++ evs)%list /\
      (probes evs <= 2 * ticks_served ready)%nat /\
      (cleans evs <= ticks_served ready)%nat /\
      (always_returns f ->
       o = (if cancelled ready then Returns tt else Blocked) /\
       self s' = self s /\
       (ticks_served ready <= probes evs)%nat /\
       tickers evs = (if cancelled ready then [EvTickerStop] else [])).
Proof.
  induction ready as [|r rest IH]; intros s lg f Hready.
  - exists Blocked, s, []. simpl. rewrite app_nil_r.
    repeat split; auto.
  - destruct r.
    + destruct (Maintain_cycle_shape s lg f Hready)
        as (o1 & s1 & evs1 & Hrun & Htr & Hp & Hc & Ht & Hself & Hret).
      cbn [Maintain_loop cancelled existsb orb ticks_served].
      unfold bind. rewrite Hrun.
      assert (Hone : probes [EvStatfs (Volume (self s))] = 1%nat)
        by reflexivity.
      assert (Hzero : cleans [EvStatfs (Volume (self s))] = 0%nat)
        by reflexivity.
      destruct o1 as [[]|v|].
      * assert (Hs : self s1 = self s) by now apply Hself.
        destruct (IH s1 lg f (ready_with_self _ _ _ _ Hs Hready))
          as (o & s' & evs & Hloop & Htr' & Hp' & Hc' & Hgood).
        exists o, s', ((EvStatfs (Volume (self s)) :: evs1) ++ evs)%list.
        split; [exact Hloop|].
        split; [rewrite Htr', Htr, <- app_assoc; reflexivity|].
        change (EvStatfs (Volume (self s)) :: evs1)
          with ([EvStatfs (Volume (self s))] ++ evs1)%list.
        rewrite !probes_app, !cleans_app, !tickers_app, Ht, Hone, Hzero.
        split; [lia|]. split; [lia|].
        intros Hr. destruct (Hgood Hr) as (Ho & Hs' & Hlow & Htk).
        repeat split; auto; try lia. congruence.
      * exists (Panics v), s1, (EvStatfs (Volume (self s)) :: evs1).
        split; [reflexivity|]. split; [exact Htr|].
        change (EvStatfs (Volume (self s)) :: evs1)
          with ([EvStatfs (Volume (self s))] ++ evs1)%list.
        rewrite !probes_app, !cleans_app, Hone, Hzero.
        split; [lia|]. split; [lia|].
        intros Hr. specialize (Hret Hr). discriminate.
      * exists Blocked, s1, (EvStatfs (Volume (self s)) :: evs1).
        split; [reflexivity|]. split; [exact Htr|].
        change (EvStatfs (Volume (self s)) :: evs1)
          with ([EvStatfs (Volume (self s))] ++ evs1)%list.
        rewrite !probes_app, !cleans_app, Hone, Hzero.
        split; [lia|]. split; [lia|].
        intros Hr. specialize (Hret Hr). discriminate.
    + exists (Returns tt), (after s (world s) [EvTickerStop]), [EvTickerStop].
      repeat split; unfold probes, cleans; simpl; lia.
Qed.

(** The whole of [Maintain]: the announcement, the first cycle, the
    ticker, and the loop. *)
Lemma Maintain_shape ready (s : State World) f :
  Clean (self s) = Some f -> mu (self s) = false ->
  exists o s' evs,
    Maintain ready s = (o, s') /\
    trace s' =
      (trace s ++
       announcement (with_defaults (self s)) (effective_Logger (self s)) ::
       EvStatfs (Volume (with_defaults (self s))) :: evs)%list /\
    (probes evs <= 1 + 2 * ticks_served ready)%nat /\
    (cleans evs <= 1 + ticks_served ready)%nat /\
    (always_returns f ->
     o = (if cancelled ready then Returns tt else Blocked) /\
     self s' = with_defaults (self s) /\
     (ticks_served ready <= probes evs)%nat /\
     tickers evs =
       EvNewTicker (CheckInterval (with_defaults (self s))) ::
       (if cancelled ready then [EvTickerStop] else [])).
Proof.
  intros Hc Hm. rewrite (Maintain_before_first_cycle ready s f Hc).
  set (s0 := mkState _ _ _).
  assert (Hready : ready_with s0 (effective_Logger (self s)) f)
    by now apply with_defaults_ready.
  destruct (Maintain_cycle_shape s0 _ f Hready)
    as (o1 & s1 & evs1 & Hrun & Htr & Hp & Hcl & Ht & Hself & Hret).
  unfold bind at 1. rewrite Hrun.
  destruct o1 as [[]|v|].
  - assert (Hs : self s1 = self s0) by now apply Hself.
    unfold bind at 1. unfold get_self at 1.
    unfold bind at 1. unfold time_NewTicker.
    pose proof (with_defaults_interval (self s)) as Hpos.
    rewrite Hs. change (self s0) with (with_defaults (self s)) in *.
    apply Z.leb_gt in Hpos. rewrite Hpos.
    unfold emit at 1.
    match goal with |- context [Maintain_loop ready ?st] =>
      destruct (Maintain_loop_shape ready st (effective_Logger (self s)) f)
        as (o & s' & evs & Hloop & Htr' & Hp' & Hcl' & Hgood)
    end.
    { apply (ready_with_self s0); [simpl; exact Hs|exact Hready]. }
    exists o, s'.
    exists (evs1 ++
            [EvNewTicker (CheckInterval (with_defaults (self s)))] ++ evs)%list.
    split; [exact Hloop|].
    split.
    { rewrite Htr'. simpl. rewrite Htr. simpl.
      rewrite <- !app_assoc. simpl. reflexivity. }
    rewrite !probes_app, !cleans_app, !tickers_app, Ht.
    change (probes [EvNewTicker (CheckInterval (with_defaults (self s)))])
      with 0%nat.
    change (cleans [EvNewTicker (CheckInterval (with_defaults (self s)))])
      with 0%nat.
    split; [lia|]. split; [lia|].
    intros Hr. destruct (Hgood Hr) as (Ho & Hs' & Hlow & Htk).
    split; [exact Ho|].
    split; [rewrite Hs'; simpl; exact Hs|].
    split; [lia|]. rewrite Htk. reflexivity.
  - exists (Panics v), s1, evs1.
    split; [reflexivity|].
    split; [rewrite Htr; simpl; rewrite <- app_assoc; reflexivity|].
    split; [lia|]. split; [lia|].
    intros Hr. specialize (Hret Hr). discriminate.
  - exists Blocked, s1, evs1.
    split; [reflexivity|].
    split; [rewrite Htr; simpl; rewrite <- app_assoc; reflexivity|].
    split; [lia|]. split; [lia|].
    intros Hr. specialize (Hret Hr). discriminate.
Qed.

End LoopShape.

Section LoopMore.

Context {World : Type} `{Platform World}.

(** X4: with the mutex free and a cleanup callback that returns
    whenever it is called, [Maintain] does not panic, whatever the other
    fields hold: it returns once the context is cancelled and is still
    waiting otherwise, and the maintainer it leaves is the configured one
    with the defaults. *)
Theorem Maintain_outcome ready (s : State World) f :
  Clean (self s) = Some f -> mu (self s) = false ->
  always_returns f ->
  exists s',
    Maintain ready s = (if cancelled ready then Returns tt else Blocked, s') /\
    self s' = with_defaults (self s).
Proof.
  intros Hc Hm Hret.
  destruct (Maintain_shape ready s f Hc Hm)
    as (o & s' & evs & Hrun & _ & _ & _ & Hgood).
  destruct (Hgood Hret) as (-> & Hs & _).
  exists s'. split; [exact Hrun|exact Hs].
Qed.

(** X5: [Maintain] checks the disk at once: whatever the order of
    ticks and cancellation, and even when the context is already
    cancelled, its events begin with the announcement of the effective
    configuration and the probe of the effective volume. *)
Theorem Maintain_checks_immediately ready (s : State World) f :
  Clean (self s) = Some f -> mu (self s) = false ->
  exists evs,
    trace (snd (Maintain ready s)) =
    (trace s ++
     [announcement (with_defaults (self s)) (effective_Logger (self s));
      EvStatfs (Volume (with_defaults (self s)))] ++ evs)%list.
Proof.
  intros Hc Hm.
  destruct (Maintain_shape ready s f Hc Hm) as (o & s' & evs & Hrun & Htr & _).
  exists evs. rewrite Hrun. simpl. exact Htr.
Qed.

(** X7: with the mutex free and a cleanup callback that returns
    whenever it is called, [Maintain] creates one ticker, with the
    effective interval, which is positive, so that [time.NewTicker] does
    not panic; it stops that ticker once when the cancellation is served,
    and never before. *)
Theorem Maintain_ticker_lifecycle ready (s : State World) f :
  Clean (self s) = Some f -> mu (self s) = false ->
  always_returns f ->
  0 < CheckInterval (with_defaults (self s)) /\
  tickers (trace (snd (Maintain ready s))) =
  (tickers (trace s) ++
   EvNewTicker (CheckInterval (with_defaults (self s))) ::
   (if cancelled ready then [EvTickerStop] else []))%list.
Proof.
  intros Hc Hm Hret. split; [apply with_defaults_interval|].
  destruct (Maintain_shape ready s f Hc Hm)
    as (o & s' & evs & Hrun & Htr & _ & _ & Hgood).
  destruct (Hgood Hret) as (_ & _ & _ & Ht).
  rewrite Hrun. simpl. rewrite Htr.
  rewrite tickers_app. f_equal.
  unfold announcement. simpl. exact Ht.
Qed.

(** X9: [Maintain] runs one cycle at the start and at most one for
    each tick served before the cancellation: with n the number of these
    it probes at least once and at most 2n times and calls the cleanup at
    most n times; with a callback that returns whenever it is called every
    one of the n cycles runs, and it probes at least n times. *)
Theorem Maintain_cleanup_budget ready (s : State World) f :
  Clean (self s) = Some f -> mu (self s) = false ->
  let n := (1 + ticks_served ready)%nat in
  let t' := trace (snd (Maintain ready s)) in
  (probes (trace s) + 1 <= probes t' <= probes (trace s) + 2 * n)%nat /\
  (cleans (trace s) <= cleans t' <= cleans (trace s) + n)%nat /\
  (always_returns f -> (probes (trace s) + n <= probes t')%nat).
Proof.
  intros Hc Hm. cbv zeta.
  destruct (Maintain_shape ready s f Hc Hm)
    as (o & s' & evs & Hrun & Htr & Hp & Hcl & Hgood).
  rewrite Hrun. simpl. rewrite Htr.
  match goal with |- context [(trace s ++ ?a :: ?b :: evs)%list] =>
    change (trace s ++ a :: b :: evs)%list
      with (trace s ++ [a; b] ++ evs)%list;
    rewrite !probes_app, !cleans_app;
    change (probes [a; b]) with 1%nat;
    change (cleans [a; b]) with 0%nat
  end.
  split; [lia|]. split; [lia|].
  intros Hret. destruct (Hgood Hret) as (_ & _ & Hlow & _). lia.
Qed.

(** X16: [Maintain] does not recover a panic of the callback. When the
    first cycle reaches the cleanup and the callback panics, [Maintain]
    ends in the same panic: the deferred unlock has run, so the mutex is
    free, the cleanup has been called once, and no ticker has been
    created. *)
Theorem callback_panic_goes_through ready (s : State World) f fs v :
  Clean (self s) = Some f -> mu (self s) = false ->
  syscall_Statfs (Volume (with_defaults (self s))) (world s) = inl fs ->
  float64_lt (usedRatio_of (probed fs)) (Threshold (with_defaults (self s)))
    = false ->
  fst (f (world s)) = Panics v ->
  exists s',
    Maintain ready s = (Panics v, s') /\
    mu (self s') = false /\
    cleans (trace s') = (cleans (trace s) + 1)%nat /\
    tickers (trace s') = tickers (trace s).
Proof.
  intros Hc Hm Hfs Hlt Hpanic.
  rewrite (Maintain_before_first_cycle ready s f Hc).
  set (s0 := mkState _ _ _).
  assert (Hready : ready_with s0 (effective_Logger (self s)) f)
    by now apply with_defaults_ready.
  unfold bind at 1. unfold Maintain_cycle at 1. unfold bind at 1.
  rewrite (maintainDiskUsage_run s0 _ f Hready). unfold cycle_run.
  change (world s0) with (world s).
  change (self s0) with (with_defaults (self s)).
  rewrite Hfs, Hlt.
  destruct (f (world s)) as [o w']. simpl in Hpanic. subst o.
  eexists. split; [reflexivity|].
  unfold after, s0. cbn [self trace].
  split; [exact Hm|].
  rewrite !cleans_app, !tickers_app.
  unfold announcement, warn_above.
  split; [unfold cleans; simpl; lia|].
  unfold tickers; simpl. now rewrite !app_nil_r.
Qed.

Lemma Maintain_loop_stops_at_cancellation pre post (s : State World) :
  Maintain_loop (pre ++ CtxDone :: post) s = Maintain_loop (pre ++ [CtxDone]) s.
Proof.
  revert s. induction pre as [|[|] pre IH]; intros s; simpl.
  - reflexivity.
  - apply bind_ext. intros _ s'. apply IH.
  - reflexivity.
Qed.

(** X6: once the cancellation is served nothing more happens: the
    ticks that would come after it change nothing in the outcome, the
    maintainer, the world or the events. *)
Theorem Maintain_stops_at_cancellation pre post (s : State World) :
  Maintain (pre ++ CtxDone :: post) s = Maintain (pre ++ [CtxDone]) s.
Proof.
  unfold Maintain.
  apply bind_ext. intros m s0. destruct (Clean m); [|reflexivity].
  apply bind_ext. intros _ s1.
  apply bind_ext. intros _ s2.
  apply bind_ext. intros _ s3.
  apply bind_ext. intros m' s4.
  apply bind_ext. intros _ s5.
  apply Maintain_loop_stops_at_cancellation.
Qed.

(** A cycle of the loop on a volume that cannot be probed. *)
Lemma Maintain_cycle_failed (s : State World) lg f err :
  ready_with s lg f ->
  syscall_Statfs (Volume (self s)) (world s) = inr err ->
  Maintain_cycle s =
  (Returns tt, after s (world s) (failed_check (Volume (self s)) lg err)).
Proof.
  intros Hready Herr. pose proof Hready as (_ & Hl & _).
  unfold Maintain_cycle, bind.
  rewrite (maintainDiskUsage_run s lg f Hready). unfold cycle_run.
  rewrite Herr. rewrite (Logger_log_run _ lg) by exact Hl.
  unfold after, failed_check. simpl. rewrite <- app_assoc. reflexivity.
Qed.

Lemma Maintain_loop_failed ready :
  forall (s : State World) lg f err,
    ready_with s lg f ->
    syscall_Statfs (Volume (self s)) (world s) = inr err ->
    Maintain_loop ready s =
    (if cancelled ready then Returns tt else Blocked,
     after s (world s)
       (concat (repeat (failed_check (Volume (self s)) lg err)
                       (ticks_served ready))
        ++ (if cancelled ready then [EvTickerStop] else []))).
Proof.
  induction ready as [|[|] rest IH]; intros s lg f err Hready Herr.
  - simpl. unfold block, after. rewrite app_nil_r. destruct s; reflexivity.
  - cbn [Maintain_loop cancelled existsb orb ticks_served repeat concat].
    unfold bind. rewrite (Maintain_cycle_failed s lg f err Hready Herr).
    rewrite (IH _ lg f err).
    + unfold after. simpl. rewrite <- !app_assoc. reflexivity.
    + apply Hready.
    + exact Herr.
  - reflexivity.
Qed.

(** X8: a failed cycle does not end the maintenance. On a volume that
    cannot be probed every cycle, the first and one per tick, probes
    once and logs the error, the cleanup is never called, and the loop
    goes on until the cancellation. *)
Theorem unprobeable_volume_keeps_looping ready (s : State World) f err :
  Clean (self s) = Some f -> mu (self s) = false ->
  syscall_Statfs (Volume (with_defaults (self s))) (world s) = inr err ->
  let m := with_defaults (self s) in
  let lg := effective_Logger (self s) in
  Maintain ready s =
  (if cancelled ready then Returns tt else Blocked,
   mkState m (world s)
     (trace s ++
      [announcement m lg] ++
      failed_check (Volume m) lg err ++
      [EvNewTicker (CheckInterval m)] ++
      concat (repeat (failed_check (Volume m) lg err) (ticks_served ready)) ++
      (if cancelled ready then [EvTickerStop] else []))).
Proof.
  intros Hc Hm Herr. cbv zeta.
  rewrite (Maintain_before_first_cycle ready s f Hc).
  set (s0 := mkState _ _ _).
  assert (Hready : ready_with s0 (effective_Logger (self s)) f)
    by now apply with_defaults_ready.
  unfold bind at 1.
  rewrite (Maintain_cycle_failed s0 _ f err Hready Herr).
  unfold bind at 1. unfold get_self at 1.
  unfold bind at 1. unfold time_NewTicker.
  pose proof (with_defaults_interval (self s)) as Hpos.
  apply Z.leb_gt in Hpos.
  change (self (after s0 (world s0) _)) with (with_defaults (self s)).
  rewrite Hpos. unfold emit at 1.
  rewrite (Maintain_loop_failed ready _ (effective_Logger (self s)) f err).
  - unfold after. simpl. rewrite <- !app_assoc. reflexivity.
  - apply Hready.
  - exact Herr.
Qed.

End LoopMore.

(** * Examples: the further properties at concrete disks *)

Lemma probe_failure_ends_cycle_witness :
  @maintainDiskUsage Disk linux
    (start (tidy (cleaner roomy_disk None)) unmounted)
  = (Returns (Some ENOENT),
     mkState (tidy (cleaner roomy_disk None)) unmounted [EvStatfs "/"]).
Proof.
  exact (@probe_failure_ends_cycle Disk linux
           (start (tidy (cleaner roomy_disk None)) unmounted)
           zap_NewNop (cleaner roomy_disk None) ENOENT
           (tidy_ready _ _) eq_refl).
Defined.

Lemma cycle_event_bounds_witness :
  (1 <= probes (trace (snd (@maintainDiskUsage Disk linux
          (start (tidy (cleaner roomy_disk None)) full_disk)))) <= 2)%nat /\
  (0 <= cleans (trace (snd (@maintainDiskUsage Disk linux
          (start (tidy (cleaner roomy_disk None)) full_disk)))) <= 1)%nat /\
  (probes (trace (snd (@maintainDiskUsage Disk linux
          (start (tidy (cleaner roomy_disk None)) full_disk)))) = 2%nat ->
   cleans (trace (snd (@maintainDiskUsage Disk linux
          (start (tidy (cleaner roomy_disk None)) full_disk)))) = 1%nat).
Proof.
  exact (@cycle_event_bounds Disk linux
           (start (tidy (cleaner roomy_disk None)) full_disk)
           zap_NewNop (cleaner roomy_disk None) (tidy_ready _ _)).
Defined.

Lemma cleaner_returns w' err : always_returns (cleaner w' err).
Proof. intros w. exists err. reflexivity. Qed.

Lemma cycle_unlocks_on_every_exit_witness :
  mu (self (snd (@maintainDiskUsage Disk linux
        (start (tidy (cleaner full_disk (Some rm_failed))) full_disk))))
  = false /\
  (mu (self (snd (@maintainDiskUsage Disk linux
         (start (tidy (panicking "boom")) full_disk)))) = false /\
   fst (panicking "boom" full_disk) = Panics "boom") /\
  (mu (self (snd (@maintainDiskUsage Disk linux
         (start (tidy stuck) full_disk)))) = true /\
   fst (stuck full_disk) = Blocked).
Proof.
  split; [|split].
  - exact (@cycle_unlocks_on_every_exit Disk linux
             (start (tidy (cleaner full_disk (Some rm_failed))) full_disk)
             zap_NewNop (cleaner full_disk (Some rm_failed)) (tidy_ready _ _)).
  - exact (@cycle_unlocks_on_every_exit Disk linux
             (start (tidy (panicking "boom")) full_disk)
             zap_NewNop (panicking "boom") (tidy_ready _ _)).
  - exact (@cycle_unlocks_on_every_exit Disk linux
             (start (tidy stuck) full_disk)
             zap_NewNop stuck (tidy_ready _ _)).
Defined.

Lemma NaN_threshold_always_cleans_witness :
  cleans (trace (snd (@maintainDiskUsage Disk linux
            (start (NaN_tidy (cleaner full_disk None)) roomy_disk))))
  = 1%nat /\
  world (snd (@maintainDiskUsage Disk linux
            (start (NaN_tidy (cleaner full_disk None)) roomy_disk)))
  = full_disk /\
  exists r,
    fst (@maintainDiskUsage Disk linux
           (start (NaN_tidy (cleaner full_disk None)) roomy_disk))
    = Returns r.
Proof.
  refine (@NaN_threshold_always_cleans Disk linux
            (start (NaN_tidy (cleaner full_disk None)) roomy_disk)
            zap_NewNop (cleaner full_disk None)
            (mkStatfs 25600 5120 5120 4096) _ eq_refl eq_refl).
  repeat split.
Defined.

Lemma used_plus_subtracted_is_total_witness :
  U64.wrap (used (@probed Disk linux (mkStatfs 1 2 2 4096))
            + free (@probed Disk linux (mkStatfs 1 2 2 4096)))
  = 4096 /\
  U64.wrap (used (@probed Disk darwin (mkStatfs 25600 2560 1280 4096))
            + available (@probed Disk darwin (mkStatfs 25600 2560 1280 4096)))
  = 104857600.
Proof.
  split.
  - exact (@used_plus_subtracted_is_total Disk linux "/"
             (start (tidy (cleaner roomy_disk None)) odd_disk) _ _ eq_refl).
  - exact (@used_plus_subtracted_is_total Disk darwin "/"
             (start (tidy (cleaner roomy_disk None)) reserved_disk) _ _
             eq_refl).
Defined.

Lemma darwin_counts_reserved_as_used_witness :
  exists d1 d2 s1 s2,
    @diskUsage Disk darwin "/" (start (tidy (cleaner roomy_disk None))
                                      reserved_disk)
      = (Returns (d1, None), s1) /\
    @diskUsage Disk linux "/" (start (tidy (cleaner roomy_disk None))
                                     reserved_disk)
      = (Returns (d2, None), s2) /\
    used d1 = used d2 + (free d2 - available d2) /\
    used d2 <= used d1.
Proof.
  destruct (@darwin_counts_reserved_as_used Disk darwin linux "/"
              (start (tidy (cleaner roomy_disk None)) reserved_disk)
              (mkStatfs 25600 2560 1280 4096))
    as (d1 & d2 & s1 & s2 & H1 & H2 & Hsum & Hle).
  - reflexivity.
  - discriminate.
  - reflexivity.
  - reflexivity.
  - unfold fits_uint64, U64.modulus; simpl; lia.
  - exists d1, d2, s1, s2. repeat split; auto. apply Hle. simpl. lia.
Defined.

Lemma Maintain_outcome_witness :
  exists s',
    @Maintain Disk linux [TickerC; CtxDone; TickerC]
      (start (unset (cleaner roomy_disk None)) full_disk)
    = (Returns tt, s') /\
    self s' =
      mkMaintainer "/" 600000000000 defaultThreshold
        (Some (cleaner roomy_disk None)) (Some zap_NewNop) false.
Proof.
  exact (@Maintain_outcome Disk linux [TickerC; CtxDone; TickerC]
           (start (unset (cleaner roomy_disk None)) full_disk)
           (cleaner roomy_disk None) eq_refl eq_refl (cleaner_returns _ _)).
Defined.

Lemma Maintain_checks_immediately_witness :
  exists evs,
    trace (snd (@Maintain Disk linux [CtxDone]
                  (start (unset (cleaner roomy_disk None)) full_disk))) =
    ([EvLog zap_NewNop InfoLevel msg_starting
        [zap_String "volume" "/"; zap_Float64 "threshold" defaultThreshold;
         zap_Duration "interval" 600000000000];
      EvStatfs "/"] ++ evs)%list.
Proof.
  exact (@Maintain_checks_immediately Disk linux [CtxDone]
           (start (unset (cleaner roomy_disk None)) full_disk)
           (cleaner roomy_disk None) eq_refl eq_refl).
Defined.

Lemma Maintain_ticker_lifecycle_witness :
  tickers (trace (snd (@Maintain Disk linux [TickerC; CtxDone]
                         (start (unset (cleaner roomy_disk None)) full_disk))))
  = [EvNewTicker 600000000000; EvTickerStop] /\
  tickers (trace (snd (@Maintain Disk linux [TickerC]
                         (start (unset (cleaner roomy_disk None)) full_disk))))
  = [EvNewTicker 600000000000].
Proof.
  split.
  - exact (proj2 (@Maintain_ticker_lifecycle Disk linux [TickerC; CtxDone]
                    (start (unset (cleaner roomy_disk None)) full_disk)
                    (cleaner roomy_disk None) eq_refl eq_refl
                    (cleaner_returns _ _))).
  - exact (proj2 (@Maintain_ticker_lifecycle Disk linux [TickerC]
                    (start (unset (cleaner roomy_disk None)) full_disk)
                    (cleaner roomy_disk None) eq_refl eq_refl
                    (cleaner_returns _ _))).
Defined.

Lemma Maintain_cleanup_budget_witness :
  (1 <= probes (trace (snd (@Maintain Disk linux [TickerC; TickerC; CtxDone]
           (start (unset (cleaner full_disk None)) full_disk)))) <= 6)%nat /\
  (0 <= cleans (trace (snd (@Maintain Disk linux [TickerC; TickerC; CtxDone]
           (start (unset (cleaner full_disk None)) full_disk)))) <= 3)%nat /\
  (3 <= probes (trace (snd (@Maintain Disk linux [TickerC; TickerC; CtxDone]
           (start (unset (cleaner full_disk None)) full_disk)))))%nat.
Proof.
  destruct (@Maintain_cleanup_budget Disk linux [TickerC; TickerC; CtxDone]
              (start (unset (cleaner full_disk None)) full_disk)
              (cleaner full_disk None) eq_refl eq_refl)
    as (Hp & Hc & Hlow).
  split; [exact Hp|]. split; [exact Hc|].
  exact (Hlow (cleaner_returns _ _)).
Defined.

Lemma callback_panic_goes_through_witness :
  exists s',
    @Maintain Disk linux [TickerC; CtxDone]
      (start (unset (panicking "boom")) full_disk)
    = (Panics "boom", s') /\
    mu (self s') = false /\
    cleans (trace s') = 1%nat /\
    tickers (trace s') = [].
Proof.
  exact (@callback_panic_goes_through Disk linux [TickerC; CtxDone]
           (start (unset (panicking "boom")) full_disk)
           (panicking "boom") (mkStatfs 25600 1280 1280 4096) "boom"
           eq_refl eq_refl eq_refl eq_refl eq_refl).
Defined.

Lemma unprobeable_volume_keeps_looping_witness :
  @Maintain Disk linux [TickerC; TickerC; CtxDone]
    (start (unset (cleaner roomy_disk None)) unmounted)
  = (Returns tt,
     mkState
       (mkMaintainer "/" 600000000000 defaultThreshold
          (Some (cleaner roomy_disk None)) (Some zap_NewNop) false)
       unmounted
       [EvLog zap_NewNop InfoLevel msg_starting
          [zap_String "volume" "/"; zap_Float64 "threshold" defaultThreshold;
           zap_Duration "interval" 600000000000];
        EvStatfs "/";
        EvLog zap_NewNop ErrorLevel msg_checking [zap_Error ENOENT];
        EvNewTicker 600000000000;
        EvStatfs "/";
        EvLog zap_NewNop ErrorLevel msg_checking [zap_Error ENOENT];
        EvStatfs "/";
        EvLog zap_NewNop ErrorLevel msg_checking [zap_Error ENOENT];
        EvTickerStop]).
Proof.
  exact (@unprobeable_volume_keeps_looping Disk linux
           [TickerC; TickerC; CtxDone]
           (start (unset (cleaner roomy_disk None)) unmounted)
           (cleaner roomy_disk None) ENOENT eq_refl eq_refl eq_refl).
Defined.
